(** * Session store and prompt assembly of the support bot

    A shallow embedding of [utils/context.ts] (class [ContextManager]) and of
    the prompt-building methods of [gemini.ts] (class [GeminiService]).

    Conventions of the embedding:
    - a JS [number] holding an identifier, a counter or a millisecond
      timestamp is a [Z] (the code only compares, increments and subtracts
      them; [NaN] and non-integral values are outside the model);
    - [Record<number, UserSession>] is a [gmap Z UserSession];
    - [Date.now()] is the [now] argument of each method (one reading per call);
    - [fs.writeFile] succeeds or throws according to the [fsOk] argument;
    - [async] methods are state transformers over the manager object that
      return either a value or the thrown error, together with the manager as
      it stands at that point (so a throw keeps the mutations made so far);
    - logging is omitted. *)

From stdpp Require Import gmap strings list fin_maps pretty.

Open Scope Z_scope.

(** ** Data model ([utils/context.ts], interfaces) *)

Inductive Role : Type := User | Assistant | System.

Inductive MessageType : Type := Text | Image | Voice.

Record ChatMessage : Type := mkChatMessage {
  role : Role;
  content : string;
  timestamp : Z;
  messageType : option MessageType
}.

(** Values stored under [preferences: Record<string, any>]: strings,
    booleans and integers (an integer small enough to print in plain decimal
    notation). The object is kept as the list of its entries in insertion
    order, the order [Object.entries] enumerates them in. *)
Inductive JsValue : Type :=
  | JString (s : string)
  | JNumber (n : Z)
  | JBoolean (b : bool).

Record UserMemory : Type := mkUserMemory {
  interests : list string;
  preferences : list (string * JsValue);
  goals : list string;
  communicationStyle : string
}.

(** [Partial<UserSession['userMemory']>]: every field may be left out. *)
Record PartialUserMemory : Type := mkPartialUserMemory {
  p_interests : option (list string);
  p_preferences : option (list (string * JsValue));
  p_goals : option (list string);
  p_communicationStyle : option string
}.

Record UserSession : Type := mkUserSession {
  chatId : Z;
  userId : Z;
  username : option string;
  firstName : option string;
  lastName : option string;
  history : list ChatMessage;
  userMemory : UserMemory;
  createdAt : Z;
  lastActivity : Z
}.

Record Statistics : Type := mkStatistics {
  totalUsers : Z;
  totalMessages : Z;
  lastReset : Z
}.

Record DatabaseSchema : Type := mkDatabaseSchema {
  users : gmap Z UserSession;
  statistics : Statistics
}.

(** The [msg.from] object handed to [getUserSession] as [userInfo?: any]. *)
Record UserInfo : Type := mkUserInfo {
  ui_username : option string;
  ui_first_name : option string;
  ui_last_name : option string
}.

#[global] Instance Role_eq_dec : EqDecision Role.
Proof. solve_decision. Defined.

#[global] Instance MessageType_eq_dec : EqDecision MessageType.
Proof. solve_decision. Defined.

#[global] Instance ChatMessage_eq_dec : EqDecision ChatMessage.
Proof. solve_decision. Defined.

(** Field updates written [obj.field = v] in the source. *)
Definition set_history (h : list ChatMessage) (u : UserSession) : UserSession :=
  mkUserSession (chatId u) (userId u) (username u) (firstName u) (lastName u)
    h (userMemory u) (createdAt u) (lastActivity u).

Definition set_lastActivity (t : Z) (u : UserSession) : UserSession :=
  mkUserSession (chatId u) (userId u) (username u) (firstName u) (lastName u)
    (history u) (userMemory u) (createdAt u) t.

Definition set_userMemory (m : UserMemory) (u : UserSession) : UserSession :=
  mkUserSession (chatId u) (userId u) (username u) (firstName u) (lastName u)
    (history u) m (createdAt u) (lastActivity u).

Definition set_users (us : gmap Z UserSession) (d : DatabaseSchema) : DatabaseSchema :=
  mkDatabaseSchema us (statistics d).

Definition set_statistics (s : Statistics) (d : DatabaseSchema) : DatabaseSchema :=
  mkDatabaseSchema (users d) s.

Definition incr_totalUsers (s : Statistics) : Statistics :=
  mkStatistics (totalUsers s + 1) (totalMessages s) (lastReset s).

Definition incr_totalMessages (s : Statistics) : Statistics :=
  mkStatistics (totalUsers s) (totalMessages s + 1) (lastReset s).

(** ** The manager object and its effects *)

(** [file] is the parsed content of [data/db.json]: [None] when the file is
    absent or does not parse. [writes] counts the completed [fs.writeFile]
    calls. *)
Record ContextManager : Type := mkContextManager {
  data : option DatabaseSchema;
  isInitialized : bool;
  file : option DatabaseSchema;
  writes : nat
}.

(** [new ContextManager()] next to a given disk content. *)
Definition newContextManager (f : option DatabaseSchema) : ContextManager :=
  mkContextManager None false f 0.

Inductive Error : Type :=
  | NotInitialized      (* 'Context manager not initialized' *)
  | SessionNotFound     (* 'User session not found' *)
  | WriteFailed.        (* rethrown by [save] *)

Inductive Result (A : Type) : Type :=
  | Ok (a : A)
  | Throw (e : Error).
Arguments Ok {A} a.
Arguments Throw {A} e.

Definition M (A : Type) : Type := ContextManager → Result A * ContextManager.

#[global] Instance M_ret : MRet M := λ A a cm, (Ok a, cm).

#[global] Instance M_bind : MBind M := λ A B k m cm,
  match m cm with
  | (Ok a, cm') => k a cm'
  | (Throw e, cm') => (Throw e, cm')
  end.

Definition throw {A : Type} (e : Error) : M A := λ cm, (Throw e, cm).

(** [this.data = d] and in-place mutation of the object behind [this.data]. *)
Definition putData (d : DatabaseSchema) : M unit := λ cm,
  (Ok (), mkContextManager (Some d) (isInitialized cm) (file cm) (writes cm)).

Definition setInitialized : M unit := λ cm,
  (Ok (), mkContextManager (data cm) true (file cm) (writes cm)).

(** [ensureInitialized]; on success the value is [this.data!]. *)
Definition ensureInitialized : M DatabaseSchema := λ cm,
  if isInitialized cm then
    match data cm with
    | Some d => (Ok d, cm)
    | None => (Throw NotInitialized, cm)
    end
  else (Throw NotInitialized, cm).

(** [save]: the whole document is rewritten from [this.data]. A failing
    write is one that fails when the file is opened, which leaves the file as
    it was; a write failing midway would leave an unparsable file instead. *)
Definition save (fsOk : bool) : M unit := λ cm,
  if fsOk then
    (Ok (), mkContextManager (data cm) (isInitialized cm) (data cm) (S (writes cm)))
  else (Throw WriteFailed, cm).

Definition emptyDatabase (now : Z) : DatabaseSchema :=
  mkDatabaseSchema ∅ (mkStatistics 0 0 now).

Definition initialize (now : Z) (fsOk : bool) : M unit := λ cm,
  match file cm with
  | Some d => (putData d ≫= λ _, setInitialized) cm
  | None => (putData (emptyDatabase now) ≫= λ _, save fsOk ≫= λ _, setInitialized) cm
  end.

(** ** Array helpers *)

(** [arr.slice(start)] of JavaScript: a negative [start] counts from the
    end, and both ends are clamped to the array. *)
Definition slice_from {A : Type} (start : Z) (l : list A) : list A :=
  let len := Z.of_nat (length l) in
  let k := if start <? 0 then Z.max (len + start) 0 else Z.min start len in
  drop (Z.to_nat k) l.

Definition is_system (msg : ChatMessage) : bool :=
  bool_decide (role msg = System).

(** ** [ContextManager] methods *)

Record BotConfig : Type := mkBotConfig {
  maxHistoryLength : Z;
  enableUserMemory : bool
}.

Definition placeholder : string :=
  "Системное сообщение будет загружено из prompt.json".

Definition seedMessage (now : Z) : ChatMessage :=
  mkChatMessage System placeholder now None.

Definition defaultMemory : UserMemory :=
  mkUserMemory
    ["эмоциональная поддержка"; "трезвость"; "восстановление"]
    [("tone", JString "доброжелательный, спокойный, уверенный, сочувствующий");
     ("style", JString "на русском языке, простыми словами, с теплом");
     ("crisis_support", JBoolean true)]
    ["поддержание трезвости"; "эмоциональное восстановление"; "управление депрессией"]
    "therapeutic_support".

Definition newSession (now chatId userId : Z) (userInfo : option UserInfo) : UserSession :=
  mkUserSession chatId userId
    (userInfo ≫= ui_username) (userInfo ≫= ui_first_name) (userInfo ≫= ui_last_name)
    [seedMessage now] defaultMemory now now.

(** [{ ...old, ...partial }] *)
Definition mergeMemory (old : UserMemory) (partial : PartialUserMemory) : UserMemory :=
  mkUserMemory
    (default (interests old) (p_interests partial))
    (default (preferences old) (p_preferences partial))
    (default (goals old) (p_goals partial))
    (default (communicationStyle old) (p_communicationStyle partial)).

Section Methods.

Variable config : BotConfig.

Definition getUserSession (now : Z) (fsOk : bool) (chatId userId : Z)
    (userInfo : option UserInfo) : M UserSession :=
  d ← ensureInitialized;
  match users d !! userId with
  | None =>
      let session := newSession now chatId userId userInfo in
      putData (set_statistics (incr_totalUsers (statistics d))
                 (set_users (<[userId := session]> (users d)) d));;
      save fsOk;;
      mret session
  | Some user =>
      let user' := set_lastActivity now user in
      putData (set_users (<[userId := user']> (users d)) d);;
      save fsOk;;
      mret user'
  end.

(** The retention step of [addMessage], applied to the history after the
    [push]. *)
Definition trimHistory (h : list ChatMessage) : list ChatMessage :=
  if Z.of_nat (length h) >? maxHistoryLength config then
    let systemMessage := find is_system h in
    let recentMessages := slice_from (- maxHistoryLength config + 1) h in
    match systemMessage with
    | Some s => s :: recentMessages
    | None => recentMessages
    end
  else h.

Definition addMessage (now : Z) (fsOk : bool) (userId : Z) (message : ChatMessage) : M unit :=
  d ← ensureInitialized;
  match users d !! userId with
  | None => throw SessionNotFound
  | Some user =>
      let user' :=
        set_history (trimHistory (history user ++ [message]))
          (set_lastActivity now user) in
      putData (set_statistics (incr_totalMessages (statistics d))
                 (set_users (<[userId := user']> (users d)) d));;
      save fsOk
  end.

Definition getHistory (userId : Z) : M (list ChatMessage) :=
  d ← ensureInitialized;
  mret (match users d !! userId with
        | Some user => history user
        | None => []
        end).

Definition clearHistory (now : Z) (fsOk : bool) (userId : Z) : M unit :=
  d ← ensureInitialized;
  match users d !! userId with
  | Some user =>
      putData (set_users (<[userId := set_history [seedMessage now] user]> (users d)) d);;
      save fsOk
  | None => mret ()
  end.

Definition updateUserMemory (fsOk : bool) (userId : Z) (memory : PartialUserMemory) : M unit :=
  d ← ensureInitialized;
  match users d !! userId with
  | Some user =>
      putData (set_users
                 (<[userId := set_userMemory (mergeMemory (userMemory user) memory) user]>
                    (users d)) d);;
      save fsOk
  | None => mret ()
  end.

(** The result [None] is the [null] of the source. *)
Definition getUserMemory (userId : Z) : M (option UserMemory) :=
  d ← ensureInitialized;
  mret (userMemory <$> users d !! userId).

Definition getStatistics : M Statistics :=
  d ← ensureInitialized;
  mret (statistics d).

Definition msPerDay : Z := 24 * 60 * 60 * 1000.

Definition cutoffTime (now daysInactive : Z) : Z := now - daysInactive * msPerDay.

Definition inactiveUserIds (cutoff : Z) (us : gmap Z UserSession) : list Z :=
  (filter (λ e : Z * UserSession, lastActivity e.2 < cutoff) (map_to_list us)).*1.

Definition deleteAll (ids : list Z) (us : gmap Z UserSession) : gmap Z UserSession :=
  foldl (λ acc k, delete k acc) us ids.

Definition cleanupInactiveUsers (now : Z) (fsOk : bool) (daysInactive : Z) : M unit :=
  d ← ensureInitialized;
  let ids := inactiveUserIds (cutoffTime now daysInactive) (users d) in
  putData (set_users (deleteAll ids (users d)) d);;
  if bool_decide (0 < length ids)%nat then save fsOk else mret ().

End Methods.

(** ** Prompt assembly ([gemini.ts]) *)

(** [customPrompt: any], the parsed [prompt.json]; every field may be
    missing. *)
Record CustomPrompt : Type := mkCustomPrompt {
  persona : option string;
  tone : option string;
  style : option string;
  system_instructions : option (list string)
}.

(** The service object. The two API handles are represented by the
    settings they were built from. *)
Record GeminiService : Type := mkGeminiService {
  genAI : string;
  model : string * Z;
  customPrompt : CustomPrompt
}.

Inductive GeminiRole : Type := RoleUser | RoleModel.

Record Part : Type := mkPart { text : string }.

Record Content : Type := mkContent {
  c_role : GeminiRole;
  parts : list Part
}.

Definition nl : string := String (Ascii.ascii_of_nat 10) EmptyString.

(** Truthiness of an optional string: present and not empty. *)
Definition truthy (o : option string) : bool :=
  match o with
  | Some s => negb (String.eqb s "")
  | None => false
  end.

Definition defaultPersona : string :=
  "Ты — дружелюбный и умный AI-помощник. Помни контекст разговора и будь полезным.".

Definition acknowledgement : string :=
  "Понял! Я готов помочь и буду учитывать контекст нашего разговора.".

(** [`${value}`] *)
Definition toString (v : JsValue) : string :=
  match v with
  | JString s => s
  | JNumber n => pretty n
  | JBoolean true => "true"
  | JBoolean false => "false"
  end.

(** [arr.join(sep)] *)
Definition join (sep : string) (l : list string) : string := String.concat sep l.

Definition nonempty {A : Type} (l : list A) : bool :=
  match l with [] => false | _ => true end.

Definition buildMemoryContext (userMemory : UserMemory) : string :=
  let contextParts0 : list string := [] in
  let contextParts1 :=
    if nonempty (interests userMemory)
    then contextParts0 ++ ["Интересы: " +:+ join ", " (interests userMemory)]
    else contextParts0 in
  let contextParts2 :=
    if nonempty (goals userMemory)
    then contextParts1 ++ ["Цели: " +:+ join ", " (goals userMemory)]
    else contextParts1 in
  let contextParts3 :=
    if truthy (Some (communicationStyle userMemory))
    then contextParts2 ++ ["Стиль общения: " +:+ communicationStyle userMemory]
    else contextParts2 in
  let contextParts4 :=
    if nonempty (preferences userMemory)
    then
      let prefs :=
        join ", " (map (λ e : string * JsValue, e.1 +:+ ": " +:+ toString e.2)
                     (preferences userMemory)) in
      contextParts3 ++ ["Предпочтения: " +:+ prefs]
    else contextParts3 in
  join "; " contextParts4.

Definition remapRole (r : Role) : GeminiRole :=
  match r with User => RoleUser | _ => RoleModel end.

Section Prompt.

Variable config : BotConfig.

Definition buildSystemMessage (this : GeminiService) (userMemory : option UserMemory) : string :=
  let cp := customPrompt this in
  let systemMessage0 :=
    if truthy (persona cp) then default defaultPersona (persona cp) else defaultPersona in
  let systemMessage1 :=
    if truthy (tone cp)
    then systemMessage0 +:+ nl +:+ nl +:+ "Тон общения: " +:+ default "" (tone cp)
    else systemMessage0 in
  let systemMessage2 :=
    if truthy (style cp)
    then systemMessage1 +:+ nl +:+ nl +:+ "Стиль: " +:+ default "" (style cp)
    else systemMessage1 in
  let systemMessage3 :=
    match system_instructions cp with
    | Some instrs =>
        if nonempty instrs
        then systemMessage2 +:+ nl +:+ nl +:+ "Дополнительные инструкции:" +:+ nl +:+ join nl instrs
        else systemMessage2
    | None => systemMessage2
    end in
  match userMemory with
  | Some mem =>
      if enableUserMemory config then
        let memoryContext := buildMemoryContext mem in
        if truthy (Some memoryContext)
        then systemMessage3 +:+ nl +:+ nl +:+ "Контекст пользователя: " +:+ memoryContext
        else systemMessage3
      else systemMessage3
  | None => systemMessage3
  end.

Definition prepareConversationHistory (this : GeminiService)
    (messages : list ChatMessage) (userMemory : option UserMemory) : list Content :=
  let history0 :=
    [mkContent RoleUser [mkPart (buildSystemMessage this userMemory)];
     mkContent RoleModel [mkPart acknowledgement]] in
  foldl (λ hist message,
           if is_system message then hist
           else hist ++ [mkContent (remapRole (role message)) [mkPart (content message)]])
        history0 messages.

End Prompt.

(** ** Observations on a manager *)

(** The manager passed [initialize] and holds the document [d]. *)
Definition ready (cm : ContextManager) (d : DatabaseSchema) : Prop :=
  isInitialized cm = true ∧ data cm = Some d.

Definition sessionOf (userId : Z) (cm : ContextManager) : option UserSession :=
  data cm ≫= λ d, users d !! userId.

Definition historyOf (userId : Z) (cm : ContextManager) : option (list ChatMessage) :=
  history <$> sessionOf userId cm.

Definition statsOf (cm : ContextManager) : option Statistics :=
  statistics <$> data cm.

(** ** Sample inputs *)

Definition sampleConfig : BotConfig := mkBotConfig 3 true.

Definition emptyManager : ContextManager :=
  mkContextManager (Some (emptyDatabase 0)) true (Some (emptyDatabase 0)) 1.


Definition sys (c : string) : ChatMessage := mkChatMessage System c 0 None.
Definition usr (c : string) : ChatMessage := mkChatMessage User c 0 None.
Definition asst (c : string) : ChatMessage := mkChatMessage Assistant c 0 None.

(** A blank session carrying a given history and activity time. *)
Definition sessionWith (userId : Z) (h : list ChatMessage) (t : Z) : UserSession :=
  mkUserSession userId userId None None None h defaultMemory 0 t.

(** An initialized manager holding the given sessions, in sync with disk. *)
Definition managerWith (us : gmap Z UserSession) (stats : Statistics) : ContextManager :=
  mkContextManager (Some (mkDatabaseSchema us stats)) true
    (Some (mkDatabaseSchema us stats)) 1.

(** ** The retention policy in the words of the specification *)

(** The [n] most recent entries, in their original order. *)
Definition takeLast {A : Type} (n : nat) (l : list A) : list A :=
  drop (length l - n) l.

(** The most recent message tagged [system]. *)
Definition lastSystem (h : list ChatMessage) : option ChatMessage :=
  find is_system (rev h).

(** Specification wording: "retain the single most recent message tagged
    system (if any existed anywhere in history) plus the most recent H − 1
    messages in original order". *)
Definition spec_retention (H : Z) (h : list ChatMessage) : list ChatMessage :=
  match lastSystem h with
  | Some s => s :: takeLast (Z.to_nat (H - 1)) h
  | None => takeLast (Z.to_nat (H - 1)) h
  end.

(** What the code retains: the first message tagged [system]. *)
Definition code_retention (H : Z) (h : list ChatMessage) : list ChatMessage :=
  match find is_system h with
  | Some s => s :: takeLast (Z.to_nat (H - 1)) h
  | None => takeLast (Z.to_nat (H - 1)) h
  end.

Definition configOne : BotConfig := mkBotConfig 1 true.

(** A run of [addMessage] calls for one user, each with its clock reading
    and disk outcome; thrown errors are caught by the caller. *)
Definition appendAll (config : BotConfig) (userId : Z)
    (calls : list (Z * bool * ChatMessage)) (cm : ContextManager) : ContextManager :=
  foldl (λ acc c, (addMessage config c.1.1 c.1.2 userId c.2 acc).2) cm calls.

Definition lastActivityOf (userId : Z) (cm : ContextManager) : option Z :=
  lastActivity <$> sessionOf userId cm.

Definition memoryOf (userId : Z) (cm : ContextManager) : option UserMemory :=
  userMemory <$> sessionOf userId cm.

Definition sampleSession : UserSession := sessionWith 1 [sys "seed"] 100.

Definition sampleData : DatabaseSchema :=
  mkDatabaseSchema {[1 := sampleSession]} (mkStatistics 1 0 0).

Definition sampleManager : ContextManager :=
  mkContextManager (Some sampleData) true (Some sampleData) 1.

(** ** Runs of the manager *)

(** The calls a client can make after [initialize]. *)
Inductive Op : Type :=
  | OpGetUserSession (chatId userId : Z) (userInfo : option UserInfo)
  | OpAddMessage (userId : Z) (message : ChatMessage)
  | OpGetHistory (userId : Z)
  | OpClearHistory (userId : Z)
  | OpUpdateUserMemory (userId : Z) (memory : PartialUserMemory)
  | OpGetUserMemory (userId : Z)
  | OpGetStatistics
  | OpCleanupInactiveUsers (daysInactive : Z).

(** A call with the clock reading and the disk outcome it meets. *)
Record Call : Type := mkCall {
  c_op : Op;
  c_now : Z;
  c_fsOk : bool
}.

Definition succeeded {A : Type} (r : Result A) : bool :=
  match r with Ok _ => true | Throw _ => false end.

(** One call: whether it returned normally, and the manager afterwards. *)
Definition step (config : BotConfig) (c : Call) (cm : ContextManager)
    : bool * ContextManager :=
  let erase {A : Type} (r : Result A * ContextManager) := (succeeded r.1, r.2) in
  match c_op c with
  | OpGetUserSession chatId userId userInfo =>
      erase (getUserSession (c_now c) (c_fsOk c) chatId userId userInfo cm)
  | OpAddMessage userId message =>
      erase (addMessage config (c_now c) (c_fsOk c) userId message cm)
  | OpGetHistory userId => erase (getHistory userId cm)
  | OpClearHistory userId => erase (clearHistory (c_now c) (c_fsOk c) userId cm)
  | OpUpdateUserMemory userId memory =>
      erase (updateUserMemory (c_fsOk c) userId memory cm)
  | OpGetUserMemory userId => erase (getUserMemory userId cm)
  | OpGetStatistics => erase (getStatistics cm)
  | OpCleanupInactiveUsers daysInactive =>
      erase (cleanupInactiveUsers (c_now c) (c_fsOk c) daysInactive cm)
  end.

Definition run (config : BotConfig) (cs : list Call) (cm : ContextManager)
    : ContextManager :=
  foldl (λ acc c, (step config c acc).2) cm cs.

Definition usersOf (cm : ContextManager) : gmap Z UserSession :=
  default ∅ (users <$> data cm).

Definition totalUsersOf (cm : ContextManager) : Z :=
  default 0 (totalUsers <$> statsOf cm).

Definition totalMessagesOf (cm : ContextManager) : Z :=
  default 0 (totalMessages <$> statsOf cm).

(** Sessions that exist after a call and did not exist before it. *)
Definition createdBy (config : BotConfig) (c : Call) (cm : ContextManager) : nat :=
  size (dom (usersOf (step config c cm).2) ∖ dom (usersOf cm)).

(** The number of sessions ever created along a run. *)
Fixpoint created (config : BotConfig) (cs : list Call) (cm : ContextManager) : nat :=
  match cs with
  | [] => 0
  | c :: cs' => createdBy config c cm + created config cs' (step config c cm).2
  end.

Definition isAddMessage (c : Call) : bool :=
  match c_op c with OpAddMessage _ _ => true | _ => false end.

(** The number of [addMessage] calls of a run that returned normally. *)
Fixpoint appended (config : BotConfig) (cs : list Call) (cm : ContextManager) : nat :=
  match cs with
  | [] => 0
  | c :: cs' =>
      (if isAddMessage c && (step config c cm).1 then 1 else 0)%nat
      + appended config cs' (step config c cm).2
  end.

(** The manager once [initialize] has run next to an absent or corrupt
    file. *)
Definition freshManager (now : Z) (fsOk : bool) : ContextManager :=
  (initialize now fsOk (newContextManager None)).2.

Definition samplePrompt : CustomPrompt :=
  mkCustomPrompt (Some "P") (Some "calm") None (Some ["one"; "two"]).

Definition serviceA : GeminiService := mkGeminiService "key-a" ("gemini-2.5-flash", 4000) samplePrompt.

Definition serviceB : GeminiService := mkGeminiService "key-b" ("gemini-pro", 100) samplePrompt.

(** The turn a non-system message becomes. *)
Definition toContent (message : ChatMessage) : Content :=
  mkContent (remapRole (role message)) [mkPart (content message)].

(** ** Further observations *)

(** The disk holds exactly the in-memory document. *)
Definition inSync (cm : ContextManager) : Prop := file cm = data cm.

(** The user a call addresses, if it addresses one. *)
Definition target (op : Op) : option Z :=
  match op with
  | OpGetUserSession _ userId _ => Some userId
  | OpAddMessage userId _ => Some userId
  | OpGetHistory userId => Some userId
  | OpClearHistory userId => Some userId
  | OpUpdateUserMemory userId _ => Some userId
  | OpGetUserMemory userId => Some userId
  | OpGetStatistics => None
  | OpCleanupInactiveUsers _ => None
  end.

Definition isCleanup (op : Op) : bool :=
  match op with OpCleanupInactiveUsers _ => true | _ => false end.

(** The message an [addMessage] call carries. *)
Definition appendedMessage (op : Op) : option ChatMessage :=
  match op with OpAddMessage _ message => Some message | _ => None end.

(** A history made of one system message followed by non-system ones. *)
Definition seededHistory (h : list ChatMessage) : Prop :=
  ∃ s rest, h = s :: rest ∧ role s = System ∧ Forall (λ m, role m ≠ System) rest.

(** A history that starts with a system message. *)
Definition startsWithSystem (h : list ChatMessage) : Prop :=
  ∃ s rest, h = s :: rest ∧ role s = System.

(** Every stored session's history satisfies [P]. *)
Definition allHistories (P : list ChatMessage → Prop) (cm : ContextManager) : Prop :=
  ∀ userId u, sessionOf userId cm = Some u → P (history u).

(** No [addMessage] call of the run carries a system message. *)
Definition appendsNoSystem (cs : list Call) : Prop :=
  Forall (λ c, ∀ m, appendedMessage (c_op c) = Some m → role m ≠ System) cs.

Definition sampleRun : list Call :=
  [mkCall (OpGetUserSession 7 42 None) 10 true;
   mkCall (OpAddMessage 42 (usr "a")) 11 true;
   mkCall (OpAddMessage 42 (asst "b")) 12 false;
   mkCall (OpAddMessage 42 (usr "c")) 13 true;
   mkCall (OpClearHistory 42) 14 true;
   mkCall (OpAddMessage 42 (usr "d")) 15 true].

Definition nonSystem (messages : list ChatMessage) : list ChatMessage :=
  filter (λ m, role m ≠ System) messages.

Definition emptyMemory : UserMemory := mkUserMemory [] [] [] "".

(** ** Generation ([gemini.ts], [generateResponse]) *)

(** What a call into the generation library yields: a text, or an
    exception with its message. *)
Inductive Outcome : Type :=
  | Done (text : string)
  | Failed (message : string).

Definition Buffer : Type := list Z.

(** The remote behaviour behind [this.model]: [startChat] may reject a
    history ([Some e]: it throws [e]); [sendMessage] answers a text on a chat
    started with a history; [generateContent] answers a text with an image
    part. The library itself is not part of the repository. *)
Record Backend : Type := mkBackend {
  startChat : list Content → option string;
  sendMessage : list Content → string → Outcome;
  generateContent : string → Buffer → Outcome
}.

Definition errorPrefix : string := "Ошибка при обращении к AI: ".

(** The [catch] of [generateResponse]: any error is rethrown with the
    prefix. *)
Definition rethrow (o : Outcome) : Outcome :=
  match o with
  | Done t => Done t
  | Failed e => Failed (errorPrefix +:+ e)
  end.

Section Generation.

Variable config : BotConfig.

(** [config.bot.enableImageRecognition] *)
Variable enableImageRecognition : bool.

Variable backend : Backend.

Definition generateResponse (this : GeminiService) (messages : list ChatMessage)
    (userMemory : option UserMemory) (imageData : option Buffer) : Outcome :=
  let conversationHistory := prepareConversationHistory config this messages userMemory in
  match startChat backend conversationHistory with
  | Some e => Failed (errorPrefix +:+ e)
  | None =>
      let textOnly :=
        match last messages with
        | None => Failed (errorPrefix +:+ "No message to process")
        | Some lastMessage =>
            rethrow (sendMessage backend conversationHistory (content lastMessage))
        end in
      match imageData with
      | Some image =>
          if enableImageRecognition then
            let textPart := default "" (content <$> last messages) in
            rethrow (generateContent backend textPart image)
          else textOnly
      | None => textOnly
      end
  end.

(** ** The text-message handler ([index.ts]) *)

(** The clock readings, write outcomes and transport outcomes the handler
    meets, in order: [e_typingOk] tells whether [bot.sendChatAction]
    resolves, [e_replyOk] whether the [bot.sendMessage] of the reply does. *)
Record TextEnv : Type := mkTextEnv {
  e_session : Z * bool;
  e_userStamp : Z;
  e_append1 : Z * bool;
  e_typingOk : bool;
  e_replyStamp : Z;
  e_append2 : Z * bool;
  e_replyOk : bool
}.

(** The last message the handler hands to the transport (parse mode and
    inline keyboard omitted): nothing, the reply, or the apology of the
    [catch] block. The apology is sent outside the [try]; whether it is
    delivered does not change the store. *)
Inductive BotAction : Type :=
  | NoAction
  | SendReply (text : string)
  | SendApology.

Definition handleTextMessage (this : GeminiService) (env : TextEnv)
    (chatId : Z) (from : option (Z * UserInfo)) (text : option string)
    (cm : ContextManager) : BotAction * ContextManager :=
  match from, text with
  | Some (userId, info), Some txt =>
      if bool_decide (userId = 0) || String.eqb txt "" || String.prefix "/" txt
      then (NoAction, cm)
      else
        match getUserSession (e_session env).1 (e_session env).2 chatId userId (Some info) cm with
        | (Throw _, cm1) => (SendApology, cm1)
        | (Ok _, cm1) =>
        match addMessage config (e_append1 env).1 (e_append1 env).2 userId
                (mkChatMessage User txt (e_userStamp env) (Some Text)) cm1 with
        | (Throw _, cm2) => (SendApology, cm2)
        | (Ok _, cm2) =>
        if negb (e_typingOk env) then (SendApology, cm2) else
        match getUserMemory userId cm2 with
        | (Throw _, cm3) => (SendApology, cm3)
        | (Ok userMemory, cm3) =>
        match getHistory userId cm3 with
        | (Throw _, cm4) => (SendApology, cm4)
        | (Ok history, cm4) =>
        match generateResponse this history userMemory None with
        | Failed _ => (SendApology, cm4)
        | Done responseText =>
        match addMessage config (e_append2 env).1 (e_append2 env).2 userId
                (mkChatMessage Assistant responseText (e_replyStamp env) None) cm4 with
        | (Throw _, cm5) => (SendApology, cm5)
        | (Ok _, cm5) =>
            if e_replyOk env then (SendReply responseText, cm5) else (SendApology, cm5)
        end end end end end end
  | _, _ => (NoAction, cm)
  end.

End Generation.

(** A backend that echoes the text it is sent, and one that always fails. *)
Definition echoBackend : Backend :=
  mkBackend (λ _, None) (λ _ t, Done ("re: " +:+ t)) (λ t _, Done ("img: " +:+ t)).


Definition calmEnv : TextEnv :=
  mkTextEnv (10, true) 11 (12, true) true 13 (14, true) true.

(** The guard at the top of the text handler: no sender id, no text, or a
    command. *)
Definition ignoredText (from : option (Z * UserInfo)) (text : option string) : Prop :=
  match from, text with
  | Some (userId, _), Some txt => userId = 0 ∨ txt = "" ∨ String.prefix "/" txt = true
  | _, _ => True
  end.

(** ** Composite updates *)

(** The partial that has the effect of [p] followed by [q]: a field of [q]
    where [q] provides one, else the field of [p]. *)
Definition combinePartial (p q : PartialUserMemory) : PartialUserMemory :=
  mkPartialUserMemory
    (match p_interests q with Some v => Some v | None => p_interests p end)
    (match p_preferences q with Some v => Some v | None => p_preferences p end)
    (match p_goals q with Some v => Some v | None => p_goals p end)
    (match p_communicationStyle q with Some v => Some v | None => p_communicationStyle p end).

(** ** Log preview ([utils/logger.ts], [logBotResponse]) *)

Section Logger.

(** A JavaScript string is a sequence of UTF-16 code units. *)
Variable CodeUnit : Type.

(** The code unit of '.' *)
Variable dot : CodeUnit.

(** [response.substring(0, 100) + (response.length > 100 ? '...' : '')] *)
Definition responsePreview (response : list CodeUnit) : list CodeUnit :=
  take 100 response
  ++ (if bool_decide (100 < length response)%nat then [dot; dot; dot] else []).

End Logger.

(** ** The prompt as a function of its four inputs *)

(** The persona text: the supplied one, or the built-in default when it is
    missing or empty. *)
Definition personaText (doc : CustomPrompt) : string :=
  match persona doc with
  | Some s => if String.eqb s "" then defaultPersona else s
  | None => defaultPersona
  end.

(** A labelled paragraph, present only when its text is. *)
Definition paragraph (label : string) (o : option string) : string :=
  match o with
  | Some s => if String.eqb s "" then "" else nl +:+ nl +:+ label +:+ s
  | None => ""
  end.

(** The enumerated auxiliary instructions, one per line. *)
Definition instructionsParagraph (doc : CustomPrompt) : string :=
  match system_instructions doc with
  | Some (i :: instrs) =>
      nl +:+ nl +:+ "Дополнительные инструкции:" +:+ nl +:+ join nl (i :: instrs)
  | _ => ""
  end.

Definition clause (present : bool) (label body : string) : option string :=
  if present then Some (label +:+ body) else None.

Definition renderPreference (e : string * JsValue) : string :=
  e.1 +:+ ": " +:+ toString e.2.

(** The memory summary: one clause per field that is present, joined by
    semicolons. *)
Definition memorySummary (m : UserMemory) : string :=
  join "; "
    (omap id
       [clause (nonempty (interests m)) "Интересы: " (join ", " (interests m));
        clause (nonempty (goals m)) "Цели: " (join ", " (goals m));
        clause (negb (String.eqb (communicationStyle m) ""))
          "Стиль общения: " (communicationStyle m);
        clause (nonempty (preferences m)) "Предпочтения: "
          (join ", " (map renderPreference (preferences m)))]).

Definition memoryParagraph (memoryEnabled : bool) (memory : option UserMemory) : string :=
  match memory with
  | Some m =>
      if memoryEnabled then paragraph "Контекст пользователя: " (Some (memorySummary m))
      else ""
  | None => ""
  end.

(** The opening instruction block. *)
Definition instructionBlock (memoryEnabled : bool) (doc : CustomPrompt)
    (memory : option UserMemory) : string :=
  String.concat ""
    [personaText doc;
     paragraph "Тон общения: " (tone doc);
     paragraph "Стиль: " (style doc);
     instructionsParagraph doc;
     memoryParagraph memoryEnabled memory].

(** The turn of a history message: a user message goes to the
    instruction-giver role, an assistant message to the respondent role. *)
Definition historyTurn (m : ChatMessage) : option Content :=
  match role m with
  | User => Some (mkContent RoleUser [mkPart (content m)])
  | Assistant => Some (mkContent RoleModel [mkPart (content m)])
  | System => None
  end.

(** The assembled prompt in the four steps of the assembly algorithm
    (instruction block, memory summary, the two opening turns, the remapped
    history), from the memory-use flag, the persona document, the history
    and the memory profile, and from nothing else. *)
Definition assemblePrompt (memoryEnabled : bool) (doc : CustomPrompt)
    (history : list ChatMessage) (memory : option UserMemory) : list Content :=
  mkContent RoleUser [mkPart (instructionBlock memoryEnabled doc memory)]
  :: mkContent RoleModel [mkPart acknowledgement]
  :: omap historyTurn history.
(** * Verification *)

Ltac unfold_m :=
  unfold mbind, M_bind, mret, M_ret, throw, putData, save, setInitialized in *.

Lemma ensureInitialized_ready cm d :
  ready cm d → ensureInitialized cm = (Ok d, cm).
Proof. intros [Hi Hd]. unfold ensureInitialized. by rewrite Hi, Hd. Qed.

Lemma ensureInitialized_state {cm} r cm' :
  ensureInitialized cm = (r, cm') → cm' = cm.
Proof.
  unfold ensureInitialized.
  destruct (isInitialized cm); [destruct (data cm)|]; by intros [= _ <-].
Qed.

Lemma ensureInitialized_Ok cm d cm' :
  ensureInitialized cm = (Ok d, cm') → ready cm d.
Proof.
  unfold ensureInitialized, ready.
  destruct (isInitialized cm); [destruct (data cm)|]; intros [=]; by subst.
Qed.

Section Absent.

Variable config : BotConfig.

(** C10: an [addMessage] for a user without a session throws before any
    mutation: the manager (in-memory document, disk content and write
    count) is returned exactly as it was. *)
Theorem addMessage_absent_atomic cm d userId now fsOk message :
  ready cm d → users d !! userId = None →
  addMessage config now fsOk userId message cm = (Throw SessionNotFound, cm).
Proof.
  intros Hr Hu. unfold addMessage. unfold_m.
  by rewrite (ensureInitialized_ready _ _ Hr), Hu.
Qed.

(** C8: for a user without a session [addMessage] throws, [getHistory]
    returns the empty array, [getUserMemory] returns null, and
    [clearHistory] and [updateUserMemory] return normally without touching
    the manager. *)
Theorem absent_session_behaviour cm d userId :
  ready cm d → users d !! userId = None →
  (∀ now fsOk message,
     (addMessage config now fsOk userId message cm).1 = Throw SessionNotFound)
  ∧ getHistory userId cm = (Ok [], cm)
  ∧ getUserMemory userId cm = (Ok None, cm)
  ∧ (∀ now fsOk, clearHistory now fsOk userId cm = (Ok (), cm))
  ∧ (∀ fsOk memory, updateUserMemory fsOk userId memory cm = (Ok (), cm)).
Proof.
  intros Hr Hu. pose proof (ensureInitialized_ready _ _ Hr) as He.
  repeat split; intros;
    unfold addMessage, getHistory, getUserMemory, clearHistory, updateUserMemory;
    unfold_m; by rewrite He, Hu.
Qed.

End Absent.

Lemma emptyManager_ready : ready emptyManager (emptyDatabase 0).
Proof. by split. Qed.

Lemma addMessage_absent_atomic_witness :
  addMessage sampleConfig 10 true 42 (mkChatMessage User "hi" 10 None) emptyManager
  = (Throw SessionNotFound, emptyManager).
Proof.
  apply (addMessage_absent_atomic sampleConfig emptyManager (emptyDatabase 0));
    [apply emptyManager_ready | reflexivity].
Defined.

Lemma absent_session_behaviour_witness :
  getHistory 42 emptyManager = (Ok [], emptyManager)
  ∧ getUserMemory 42 emptyManager = (Ok None, emptyManager).
Proof.
  destruct (absent_session_behaviour sampleConfig emptyManager (emptyDatabase 0) 42)
    as (_ & Hh & Hm & _); [apply emptyManager_ready | reflexivity |].
  by split.
Defined.

(** ** Retention on append *)

Lemma slice_from_takeLast {A : Type} (H : Z) (l : list A) :
  2 ≤ H → slice_from (- H + 1) l = takeLast (Z.to_nat (H - 1)) l.
Proof.
  intros HH. unfold slice_from, takeLast.
  destruct (Z.ltb_spec (- H + 1) 0) as [_|?]; [|lia].
  f_equal. lia.
Qed.

Lemma length_takeLast {A : Type} (n : nat) (l : list A) :
  length (takeLast n l) = Nat.min n (length l).
Proof. unfold takeLast. rewrite length_drop. lia. Qed.

Lemma save_data fsOk cm : data (save fsOk cm).2 = data cm.
Proof. unfold save. by destruct fsOk. Qed.

Lemma save_isInitialized fsOk cm : isInitialized (save fsOk cm).2 = isInitialized cm.
Proof. unfold save. by destruct fsOk. Qed.

Lemma save_result fsOk cm :
  (save fsOk cm).1 = if fsOk then Ok () else Throw WriteFailed.
Proof. unfold save. by destruct fsOk. Qed.

Section Retention.

Variable config : BotConfig.

Lemma trimHistory_over h :
  2 ≤ maxHistoryLength config →
  Z.of_nat (length h) > maxHistoryLength config →
  trimHistory config h = code_retention (maxHistoryLength config) h.
Proof.
  intros HH Hlen. unfold trimHistory, code_retention.
  destruct (Z.gtb_spec (Z.of_nat (length h)) (maxHistoryLength config)); [|lia].
  by rewrite slice_from_takeLast.
Qed.

Lemma trimHistory_within h :
  Z.of_nat (length h) ≤ maxHistoryLength config → trimHistory config h = h.
Proof.
  intros Hlen. unfold trimHistory.
  destruct (Z.gtb_spec (Z.of_nat (length h)) (maxHistoryLength config)); [lia|done].
Qed.

(** The document after the in-memory part of [addMessage]. *)
Lemma addMessage_present cm d userId u now fsOk message :
  ready cm d → users d !! userId = Some u →
  let u' := set_history (trimHistory config (history u ++ [message]))
              (set_lastActivity now u) in
  let d' := mkDatabaseSchema (<[userId := u']> (users d))
              (incr_totalMessages (statistics d)) in
  addMessage config now fsOk userId message cm
  = save fsOk (mkContextManager (Some d') (isInitialized cm) (file cm) (writes cm)).
Proof.
  intros Hr Hu. unfold addMessage. unfold_m.
  by rewrite (ensureInitialized_ready _ _ Hr), Hu.
Qed.

Lemma addMessage_ready cm d userId u now fsOk message :
  ready cm d → users d !! userId = Some u →
  ready (addMessage config now fsOk userId message cm).2
    (mkDatabaseSchema
       (<[userId := set_history (trimHistory config (history u ++ [message]))
                      (set_lastActivity now u)]> (users d))
       (incr_totalMessages (statistics d))).
Proof.
  intros Hr Hu. rewrite (addMessage_present _ _ _ _ _ _ _ Hr Hu).
  split; [rewrite save_isInitialized; apply Hr | by rewrite save_data].
Qed.

Lemma addMessage_sessionOf cm d userId u now fsOk message :
  ready cm d → users d !! userId = Some u →
  sessionOf userId (addMessage config now fsOk userId message cm).2
  = Some (set_history (trimHistory config (history u ++ [message]))
            (set_lastActivity now u)).
Proof.
  intros Hr Hu. destruct (addMessage_ready _ _ _ _ now fsOk message Hr Hu) as [_ Hd].
  unfold sessionOf. rewrite Hd. simpl. by rewrite lookup_insert_eq.
Qed.

End Retention.

(** C1 (as amended): with a maximum [H >= 2], an append that brings the
    history above [H] leaves the first (oldest) message tagged system, if
    there is one, followed by the [H - 1] most recent messages in their
    original order; that first system message is therefore never evicted.
    With [H = 3] and an empty history, appending a system message and three
    non-system messages keeps the system message and the last two. *)
Theorem addMessage_retention config cm d userId u :
  2 ≤ maxHistoryLength config →
  ready cm d → users d !! userId = Some u →
  (∀ now fsOk message,
     Z.of_nat (length (history u ++ [message])) > maxHistoryLength config →
     historyOf userId (addMessage config now fsOk userId message cm).2
     = Some (code_retention (maxHistoryLength config) (history u ++ [message]))
     ∧ ∀ s, find is_system (history u ++ [message]) = Some s →
            ∃ rest, historyOf userId (addMessage config now fsOk userId message cm).2
                    = Some (s :: rest) ∧ length rest = Z.to_nat (maxHistoryLength config - 1))
  ∧ (maxHistoryLength config = 3 → history u = [] →
     ∀ t1 t2 t3 t4 o1 o2 o3 o4 m1 m2 m3 m4,
       role m1 = System → role m2 ≠ System → role m3 ≠ System → role m4 ≠ System →
       let cm1 := (addMessage config t1 o1 userId m1 cm).2 in
       let cm2 := (addMessage config t2 o2 userId m2 cm1).2 in
       let cm3 := (addMessage config t3 o3 userId m3 cm2).2 in
       let cm4 := (addMessage config t4 o4 userId m4 cm3).2 in
       historyOf userId cm4 = Some [m1; m3; m4]).
Proof.
  intros HH Hr Hu. split.
  - intros now fsOk message Hlen.
    assert (Hh : historyOf userId (addMessage config now fsOk userId message cm).2
                 = Some (code_retention (maxHistoryLength config) (history u ++ [message]))).
    { unfold historyOf. rewrite (addMessage_sessionOf _ _ _ _ _ _ _ _ Hr Hu). simpl.
      by rewrite trimHistory_over. }
    split; [exact Hh|].
    intros s Hs. rewrite Hh. unfold code_retention. rewrite Hs.
    eexists; split; [reflexivity|].
    rewrite length_takeLast. lia.
  - intros H3 Hempty t1 t2 t3 t4 o1 o2 o3 o4 m1 m2 m3 m4 R1 R2 R3 R4 cm1 cm2 cm3 cm4.
    pose proof (addMessage_ready config _ _ _ _ t1 o1 m1 Hr Hu) as Hr1.
    fold cm1 in Hr1. rewrite Hempty in Hr1. simpl in Hr1.
    rewrite trimHistory_within in Hr1 by (simpl; lia).
    pose proof (addMessage_ready config _ _ userId _ t2 o2 m2 Hr1
                  ltac:(simpl; apply lookup_insert_eq)) as Hr2.
    fold cm2 in Hr2. simpl in Hr2.
    rewrite trimHistory_within in Hr2 by (simpl; lia).
    pose proof (addMessage_ready config _ _ userId _ t3 o3 m3 Hr2
                  ltac:(simpl; apply lookup_insert_eq)) as Hr3.
    fold cm3 in Hr3. simpl in Hr3.
    rewrite trimHistory_within in Hr3 by (simpl; lia).
    unfold historyOf, cm4.
    rewrite (addMessage_sessionOf config _ _ userId _ t4 o4 m4 Hr3
               ltac:(simpl; apply lookup_insert_eq)).
    simpl. rewrite trimHistory_over by (simpl; lia).
    unfold code_retention, is_system. simpl.
    rewrite bool_decide_eq_true_2 by done.
    by rewrite H3.
Qed.

Lemma addMessage_retention_witness :
  historyOf 1
    (addMessage sampleConfig 50 true 1 (usr "bye")
       (managerWith {[1 := sessionWith 1 [sys "seed"; usr "hi"; asst "hello"] 0]}
          (mkStatistics 1 3 0))).2
  = Some [sys "seed"; asst "hello"; usr "bye"].
Proof.
  refine (proj1 (proj1 (addMessage_retention sampleConfig
            (managerWith {[1 := sessionWith 1 [sys "seed"; usr "hi"; asst "hello"] 0]}
               (mkStatistics 1 3 0))
            _ 1 (sessionWith 1 [sys "seed"; usr "hi"; asst "hello"] 0) _ _ _)
          50 true (usr "bye") _)).
  - simpl. lia.
  - split; reflexivity.
  - reflexivity.
  - simpl. lia.
Defined.

(** C1, counterexample: with [H = 3] and a history holding two system
    messages, the code keeps the older one ("a") whereas the retention
    policy as worded keeps the most recent one ("b"). *)
Lemma addMessage_keeps_first_system_not_latest :
  let cm := managerWith {[1 := sessionWith 1 [sys "a"; sys "b"; usr "x"] 0]}
              (mkStatistics 1 3 0) in
  let h := [sys "a"; sys "b"; usr "x"] ++ [usr "y"] in
  Z.of_nat (length h) > maxHistoryLength sampleConfig
  ∧ historyOf 1 (addMessage sampleConfig 50 true 1 (usr "y") cm).2
    = Some [sys "a"; usr "x"; usr "y"]
  ∧ spec_retention (maxHistoryLength sampleConfig) h = [sys "b"; usr "x"; usr "y"]
  ∧ historyOf 1 (addMessage sampleConfig 50 true 1 (usr "y") cm).2
    ≠ Some (spec_retention (maxHistoryLength sampleConfig) h).
Proof.
  split; [reflexivity|]. split; [reflexivity|]. split; [reflexivity|].
  vm_compute. discriminate.
Qed.

(** The same four appends on a session made by [getUserSession], which
    already holds the placeholder seed: the placeholder is the system message
    that stays, and the appended system message is evicted. *)
Example addMessage_on_created_session :
  let cm0 := (getUserSession 10 true 7 42 None (freshManager 0 true)).2 in
  historyOf 42
    (appendAll sampleConfig 42
       [(11, true, sys "seed"); (12, true, usr "hi");
        (13, true, asst "hello"); (14, true, usr "bye")] cm0)
  = Some [seedMessage 10; asst "hello"; usr "bye"].
Proof. reflexivity. Qed.

(** ** Bounded history *)

Section Bound.

Variable config : BotConfig.

Lemma trimHistory_length_bound h :
  2 ≤ maxHistoryLength config →
  Z.of_nat (length (trimHistory config h)) ≤ maxHistoryLength config.
Proof.
  intros HH.
  destruct (Z.le_gt_cases (Z.of_nat (length h)) (maxHistoryLength config)) as [Hle|Hgt].
  - by rewrite trimHistory_within.
  - rewrite trimHistory_over by lia. unfold code_retention.
    destruct (find is_system h); simpl; rewrite length_takeLast; lia.
Qed.

(** A system message at index 0 stays at index 0, whatever the maximum. *)
Lemma trimHistory_head_system s h :
  is_system s = true → ∃ rest, trimHistory config (s :: h) = s :: rest.
Proof.
  intros Hs. unfold trimHistory.
  destruct (Z.of_nat (length (s :: h)) >? maxHistoryLength config); [|by eexists].
  simpl. rewrite Hs. by eexists.
Qed.

(** For a maximum of at least 2: after each append of a run, the history
    holds at most [H] messages and still starts with the seed message. *)
Lemma appendAll_bounded userId seed calls cm d u :
  2 ≤ maxHistoryLength config →
  ready cm d → users d !! userId = Some u →
  is_system seed = true → head (history u) = Some seed →
  ∃ d' u', ready (appendAll config userId calls cm) d'
           ∧ users d' !! userId = Some u'
           ∧ head (history u') = Some seed
           ∧ (calls ≠ [] → Z.of_nat (length (history u')) ≤ maxHistoryLength config).
Proof.
  intros HH. revert cm d u.
  induction calls as [|[[now fsOk] message] calls IH] using rev_ind;
    intros cm d u Hr Hu Hseed Hhead.
  - exists d, u. split; [done|]. split; [done|]. split; [done|]. by intros [].
  - unfold appendAll. rewrite foldl_app. simpl. fold (appendAll config userId calls cm).
    destruct (IH cm d u Hr Hu Hseed Hhead) as (d1 & u1 & Hr1 & Hu1 & Hh1 & _).
    pose proof (addMessage_ready config _ _ _ _ now fsOk message Hr1 Hu1) as Hr2.
    eexists _, _. split; [exact Hr2|]. simpl. split; [apply lookup_insert_eq|].
    simpl. split.
    + destruct (history u1) as [|s h1]; [done|]. simpl in Hh1. injection Hh1 as ->.
      destruct (trimHistory_head_system seed (h1 ++ [message]) Hseed) as [rest Hrest].
      simpl. by rewrite Hrest.
    + intros _. by apply trimHistory_length_bound.
Qed.

End Bound.

(** C2, failing input: with [MAX_HISTORY_LENGTH=1] the first append to a
    freshly created session leaves three messages, the second five: the
    trim step prepends the seed to the untrimmed history. *)
Theorem addMessage_cap_one_grows :
  let cm0 := (initialize 0 true (newContextManager None)).2 in
  let cm1 := (getUserSession 10 true 7 42 None cm0).2 in
  let r2 := addMessage configOne 11 true 42 (usr "hi") cm1 in
  let r3 := addMessage configOne 12 true 42 (asst "hello") r2.2 in
  r2.1 = Ok ()
  ∧ historyOf 42 r2.2 = Some [seedMessage 10; seedMessage 10; usr "hi"]
  ∧ r3.1 = Ok ()
  ∧ historyOf 42 r3.2
    = Some [seedMessage 10; seedMessage 10; seedMessage 10; usr "hi"; asst "hello"]
  ∧ maxHistoryLength configOne = 1.
Proof. repeat split; reflexivity. Qed.

(** ** Inactivity sweep *)

Lemma deleteAll_lookup ids (us : gmap Z UserSession) k :
  deleteAll ids us !! k = if decide (k ∈ ids) then None else us !! k.
Proof.
  unfold deleteAll. revert us.
  induction ids as [|i ids IH]; intros us; simpl.
  - destruct (decide (k ∈ [])) as [Hin|_]; [by apply elem_of_nil in Hin|done].
  - rewrite IH.
    destruct (decide (k ∈ ids)) as [Hin|Hnin].
    + rewrite decide_True; [done | by right].
    + destruct (decide (k = i)) as [->|Hne].
      * rewrite lookup_delete_eq. rewrite decide_True; [done | by left].
      * rewrite lookup_delete_ne by done.
        rewrite decide_False; [done|].
        intros [?|?]%elem_of_cons; done.
Qed.

Lemma elem_of_inactiveUserIds cutoff (us : gmap Z UserSession) k :
  k ∈ inactiveUserIds cutoff us ↔ ∃ u, us !! k = Some u ∧ lastActivity u < cutoff.
Proof.
  unfold inactiveUserIds. rewrite list_elem_of_fmap. split.
  - intros [[k' u] [-> [Hlt Hin]%list_elem_of_filter]].
    exists u. split; [by apply elem_of_map_to_list | done].
  - intros [u [Hu Hlt]]. exists (k, u). split; [done|].
    apply list_elem_of_filter. split; [done | by apply elem_of_map_to_list].
Qed.

Lemma cleanup_lookup cutoff (us : gmap Z UserSession) k :
  deleteAll (inactiveUserIds cutoff us) us !! k
  = match us !! k with
    | Some u => if bool_decide (lastActivity u < cutoff) then None else Some u
    | None => None
    end.
Proof.
  rewrite deleteAll_lookup.
  destruct (decide (k ∈ inactiveUserIds cutoff us)) as [Hin|Hnin].
  - apply elem_of_inactiveUserIds in Hin as [u [-> Hlt]].
    by rewrite bool_decide_eq_true_2.
  - destruct (us !! k) as [u|] eqn:Hu; [|done].
    rewrite bool_decide_eq_false_2; [done|].
    intros Hlt. apply Hnin, elem_of_inactiveUserIds. eauto.
Qed.

Lemma cleanupInactiveUsers_data cm d now fsOk daysInactive :
  ready cm d →
  data (cleanupInactiveUsers now fsOk daysInactive cm).2
  = Some (set_users
            (deleteAll (inactiveUserIds (cutoffTime now daysInactive) (users d)) (users d)) d).
Proof.
  intros Hr. unfold cleanupInactiveUsers. unfold_m.
  rewrite (ensureInitialized_ready _ _ Hr).
  case_bool_decide; [|done].
  by destruct fsOk.
Qed.



(** ** Activity time stamps *)

Section Activity.

Variable config : BotConfig.

(** C4 (as amended): on an existing session, [getUserSession] and
    [addMessage] set [lastActivity] to the current time; [clearHistory] and
    [updateUserMemory] leave [lastActivity] as it was, and the two reads
    [getHistory] and [getUserMemory] leave the whole manager as it was. *)
Theorem lastActivity_updates cm d userId u :
  ready cm d → users d !! userId = Some u →
  (∀ now fsOk chatId userInfo,
     lastActivityOf userId (getUserSession now fsOk chatId userId userInfo cm).2 = Some now)
  ∧ (∀ now fsOk message,
       lastActivityOf userId (addMessage config now fsOk userId message cm).2 = Some now)
  ∧ (∀ now fsOk,
       lastActivityOf userId (clearHistory now fsOk userId cm).2 = Some (lastActivity u))
  ∧ (∀ fsOk memory,
       lastActivityOf userId (updateUserMemory fsOk userId memory cm).2
       = Some (lastActivity u))
  ∧ getHistory userId cm = (Ok (history u), cm)
  ∧ getUserMemory userId cm = (Ok (Some (userMemory u)), cm).
Proof.
  intros Hr Hu. pose proof (ensureInitialized_ready _ _ Hr) as He.
  repeat split; intros;
    unfold lastActivityOf, sessionOf, getUserSession, addMessage, clearHistory,
      updateUserMemory, getHistory, getUserMemory;
    unfold_m; rewrite He, Hu; try done;
    destruct fsOk; simpl; by rewrite lookup_insert_eq.
Qed.

End Activity.

Lemma lastActivity_updates_witness :
  lastActivityOf 1
    (addMessage sampleConfig 200 true 1 (usr "hi")
       (managerWith {[1 := sessionWith 1 [sys "seed"] 100]} (mkStatistics 1 0 0))).2
  = Some 200.
Proof.
  refine (proj1 (proj2 (lastActivity_updates sampleConfig
            (managerWith {[1 := sessionWith 1 [sys "seed"] 100]} (mkStatistics 1 0 0))
            _ 1 (sessionWith 1 [sys "seed"] 100) _ _)) 200 true (usr "hi")).
  - split; reflexivity.
  - reflexivity.
Defined.

(** C4, counterexample: a [clearHistory] at time 200 on a session last
    active at time 100 succeeds and leaves [lastActivity] at 100; so do
    [updateUserMemory], [getHistory] and [getUserMemory]. *)
Lemma clearHistory_keeps_lastActivity :
  (clearHistory 200 true 1
     (managerWith {[1 := sessionWith 1 [sys "seed"; usr "hi"] 100]}
        (mkStatistics 1 1 0))).1 = Ok ()
  ∧ lastActivityOf 1
      (clearHistory 200 true 1
         (managerWith {[1 := sessionWith 1 [sys "seed"; usr "hi"] 100]}
            (mkStatistics 1 1 0))).2 = Some 100
  ∧ lastActivityOf 1
      (updateUserMemory true 1 (mkPartialUserMemory None None (Some ["g"]) None)
         (managerWith {[1 := sessionWith 1 [sys "seed"; usr "hi"] 100]}
            (mkStatistics 1 1 0))).2 = Some 100
  ∧ lastActivityOf 1
      (getHistory 1
         (managerWith {[1 := sessionWith 1 [sys "seed"; usr "hi"] 100]}
            (mkStatistics 1 1 0))).2 = Some 100
  ∧ lastActivityOf 1
      (getUserMemory 1
         (managerWith {[1 := sessionWith 1 [sys "seed"; usr "hi"] 100]}
            (mkStatistics 1 1 0))).2 = Some 100.
Proof. repeat split; reflexivity. Qed.

(** ** Session creation *)

(** C5: two consecutive [getUserSession] calls for a user without a session
    create one session (one new key in [users]) and raise [totalUsers] by
    one in total; the second call returns the session made by the first with
    only [lastActivity] refreshed: the session stored and returned after the
    second call has [lastActivity] equal to the time of the second call and
    every other field as the first call set it. *)
Theorem getUserSession_twice cm d uid
    now1 fsOk1 chatId1 userInfo1 now2 fsOk2 chatId2 userInfo2 :
  ready cm d → users d !! uid = None →
  let r1 := getUserSession now1 fsOk1 chatId1 uid userInfo1 cm in
  let r2 := getUserSession now2 fsOk2 chatId2 uid userInfo2 r1.2 in
  let s := newSession now1 chatId1 uid userInfo1 in
  data r1.2 = Some (mkDatabaseSchema (<[uid := s]> (users d))
                      (incr_totalUsers (statistics d)))
  ∧ data r2.2 = Some (mkDatabaseSchema (<[uid := set_lastActivity now2 s]> (users d))
                        (incr_totalUsers (statistics d)))
  ∧ (totalUsers <$> statsOf r2.2) = Some (totalUsers (statistics d) + 1)
  ∧ (size <$> (users <$> data r2.2)) = Some (S (size (users d)))
  ∧ (fsOk1 = true → r1.1 = Ok s)
  ∧ (fsOk2 = true → r2.1 = Ok (set_lastActivity now2 s))
  ∧ (totalUsers <$> statsOf r1.2) = Some (totalUsers (statistics d) + 1)
  ∧ (∀ k, k ≠ uid → sessionOf k r2.2 = sessionOf k cm)
  ∧ ∃ s1 s2,
      sessionOf uid r1.2 = Some s1 ∧ sessionOf uid r2.2 = Some s2
      ∧ (fsOk1 = true → r1.1 = Ok s1) ∧ (fsOk2 = true → r2.1 = Ok s2)
      ∧ lastActivity s1 = now1 ∧ lastActivity s2 = now2
      ∧ chatId s2 = chatId s1 ∧ userId s2 = userId s1
      ∧ username s2 = username s1 ∧ firstName s2 = firstName s1
      ∧ lastName s2 = lastName s1
      ∧ history s2 = history s1 ∧ userMemory s2 = userMemory s1
      ∧ createdAt s2 = createdAt s1
      ∧ chatId s1 = chatId1 ∧ userId s1 = uid
      ∧ username s1 = userInfo1 ≫= ui_username
      ∧ firstName s1 = userInfo1 ≫= ui_first_name
      ∧ lastName s1 = userInfo1 ≫= ui_last_name
      ∧ history s1 = [mkChatMessage System placeholder now1 None]
      ∧ userMemory s1 = defaultMemory ∧ createdAt s1 = now1.
Proof.
  intros Hr Hu r1 r2 s.
  pose proof (ensureInitialized_ready _ _ Hr) as He.
  assert (H1 : r1 = (if fsOk1 then Ok s else Throw WriteFailed,
                     mkContextManager
                       (Some (mkDatabaseSchema (<[uid := s]> (users d))
                                (incr_totalUsers (statistics d))))
                       true
                       (if fsOk1
                        then Some (mkDatabaseSchema (<[uid := s]> (users d))
                                     (incr_totalUsers (statistics d)))
                        else file cm)
                       (if fsOk1 then S (writes cm) else writes cm))).
  { unfold r1, getUserSession. unfold_m. rewrite He, Hu.
    destruct Hr as [-> _]. by destruct fsOk1. }
  assert (H2 : data r2.2
               = Some (mkDatabaseSchema (<[uid := set_lastActivity now2 s]> (users d))
                         (incr_totalUsers (statistics d)))
               ∧ (fsOk2 = true → r2.1 = Ok (set_lastActivity now2 s))).
  { unfold r2. rewrite H1. unfold getUserSession, ensureInitialized. unfold_m. simpl.
    rewrite lookup_insert_eq. unfold set_users, set_statistics. simpl.
    rewrite insert_insert_eq. by destruct fsOk2. }
  destruct H2 as [H2 H2r].
  split; [by rewrite H1|]. split; [exact H2|].
  split; [unfold statsOf; by rewrite H2|].
  split; [rewrite H2; simpl; by rewrite map_size_insert_None|].
  split; [intros ->; by rewrite H1|]. split; [exact H2r|].
  split; [unfold statsOf; by rewrite H1|].
  split.
  { intros k Hk. unfold sessionOf. rewrite H2. destruct Hr as [_ ->]. simpl.
    by rewrite lookup_insert_ne. }
  exists s, (set_lastActivity now2 s).
  split; [unfold sessionOf; rewrite H1; simpl; by rewrite lookup_insert_eq|].
  split; [unfold sessionOf; rewrite H2; simpl; by rewrite lookup_insert_eq|].
  split; [intros ->; by rewrite H1|]. split; [exact H2r|].
  by repeat split.
Qed.

Lemma getUserSession_twice_witness :
  (totalUsers <$> statsOf
     (getUserSession 20 true 7 42 None
        (getUserSession 10 true 7 42 None emptyManager).2).2) = Some 1
  ∧ ∃ s1 s2,
      sessionOf 42 (getUserSession 10 true 7 42 None emptyManager).2 = Some s1
      ∧ sessionOf 42
          (getUserSession 20 true 7 42 None
             (getUserSession 10 true 7 42 None emptyManager).2).2 = Some s2
      ∧ lastActivity s1 = 10 ∧ lastActivity s2 = 20 ∧ createdAt s2 = createdAt s1.
Proof.
  destruct (getUserSession_twice emptyManager (emptyDatabase 0) 42
              10 true 7 None 20 true 7 None)
    as (_ & _ & Ht & _ & _ & _ & _ & _ & s1 & s2 & Hs1 & Hs2 & _ & _ & Hl1 & Hl2
        & _ & _ & _ & _ & _ & _ & _ & Hc & _).
  - split; reflexivity.
  - reflexivity.
  - split; [exact Ht|]. exists s1, s2. by repeat split.
Defined.

(** ** Memory updates *)

(** C6: [updateUserMemory] on an existing session replaces each field the
    partial provides and keeps each field it omits: the profile stored for
    the user afterwards has, field by field, the provided value or else the
    old one; the rest of the session is untouched. In particular a partial
    with only [goals] leaves [interests], [communicationStyle] and
    [preferences] as they were. *)
Theorem updateUserMemory_merge cm d uid u fsOk memory :
  ready cm d → users d !! uid = Some u →
  let cm' := (updateUserMemory fsOk uid memory cm).2 in
  ∃ m',
    memoryOf uid cm' = Some m'
    ∧ interests m' = match p_interests memory with
                     | Some v => v | None => interests (userMemory u) end
    ∧ preferences m' = match p_preferences memory with
                       | Some v => v | None => preferences (userMemory u) end
    ∧ goals m' = match p_goals memory with
                 | Some v => v | None => goals (userMemory u) end
    ∧ communicationStyle m' = match p_communicationStyle memory with
                              | Some v => v | None => communicationStyle (userMemory u) end
    ∧ (∀ g, memory = mkPartialUserMemory None None (Some g) None →
            interests m' = interests (userMemory u)
            ∧ communicationStyle m' = communicationStyle (userMemory u)
            ∧ preferences m' = preferences (userMemory u)
            ∧ goals m' = g)
    ∧ getUserMemory uid cm' = (Ok (Some m'), cm')
    ∧ ∃ u', sessionOf uid cm' = Some u'
            ∧ userMemory u' = m'
            ∧ chatId u' = chatId u ∧ userId u' = userId u
            ∧ username u' = username u ∧ firstName u' = firstName u
            ∧ lastName u' = lastName u ∧ history u' = history u
            ∧ createdAt u' = createdAt u ∧ lastActivity u' = lastActivity u.
Proof.
  intros Hr Hu cm'. exists (mergeMemory (userMemory u) memory).
  assert (Hs : sessionOf uid cm'
               = Some (set_userMemory (mergeMemory (userMemory u) memory) u)
               ∧ isInitialized cm' = true).
  { unfold cm', sessionOf, updateUserMemory. unfold_m.
    rewrite (ensureInitialized_ready _ _ Hr), Hu. destruct Hr as [Hi _].
    destruct fsOk; simpl; by rewrite lookup_insert_eq. }
  destruct Hs as [Hs Hi].
  split; [unfold memoryOf; by rewrite Hs|].
  unfold mergeMemory. simpl.
  split; [done|]. split; [done|]. split; [done|]. split; [done|].
  split; [by intros g ->|].
  split.
  - unfold getUserMemory, ensureInitialized. unfold_m. rewrite Hi.
    unfold sessionOf in Hs. destruct (data cm') as [d'|]; [|done]. simpl in *.
    by rewrite Hs.
  - eexists. split; [exact Hs|]. by repeat split.
Qed.

Lemma updateUserMemory_merge_witness :
  ∃ m',
    memoryOf 1
      (updateUserMemory true 1 (mkPartialUserMemory None None (Some ["g"]) None)
         sampleManager).2
    = Some m'
    ∧ interests m' = interests defaultMemory
    ∧ goals m' = ["g"].
Proof.
  destruct (updateUserMemory_merge sampleManager sampleData 1 sampleSession true
              (mkPartialUserMemory None None (Some ["g"]) None))
    as (m' & Hs & Hi & _ & Hg & _).
  - split; reflexivity.
  - reflexivity.
  - exists m'. split; [exact Hs|]. split; [exact Hi | exact Hg].
Defined.

(** ** Counters *)

Lemma size_difference_subseteq (X Y : gset Z) : X ⊆ Y → size (X ∖ Y) = 0%nat.
Proof.
  intros Hsub. apply size_empty_iff. intros k. split.
  - intros [Hx Hy]%elem_of_difference. destruct Hy. by apply Hsub.
  - by intros ?%elem_of_empty.
Qed.

Lemma size_dom_same (m : gmap Z UserSession) : size (dom m ∖ dom m) = 0%nat.
Proof. by apply size_difference_subseteq. Qed.

Lemma size_dom_insert_present (m : gmap Z UserSession) k u v :
  m !! k = Some u → size (dom (<[k:=v]> m) ∖ dom m) = 0%nat.
Proof. intros Hk. rewrite dom_insert_lookup_L by eauto. apply size_dom_same. Qed.

Lemma size_dom_insert_fresh (m : gmap Z UserSession) k v :
  m !! k = None → size (dom (<[k:=v]> m) ∖ dom m) = 1%nat.
Proof.
  intros Hk. apply not_elem_of_dom in Hk. rewrite dom_insert_L.
  assert (({[k]} ∪ dom m) ∖ dom m = ({[k]} : gset Z)) as ->.
  { apply set_eq. intros j.
    rewrite elem_of_difference, elem_of_union, elem_of_singleton.
    split; [intros [[?|?] ?]; done | intros ->; auto]. }
  apply size_singleton.
Qed.

Lemma size_dom_deleteAll ids (m : gmap Z UserSession) :
  size (dom (deleteAll ids m) ∖ dom m) = 0%nat.
Proof.
  apply size_difference_subseteq.
  intros k [u Hk]%elem_of_dom. rewrite deleteAll_lookup in Hk.
  destruct (decide (k ∈ ids)); [done|]. apply elem_of_dom. eauto.
Qed.

Ltac step_cases c cm :=
  let d := fresh "d" in
  let f := fresh "f" in
  let w := fresh "w" in
  let now := fresh "now" in
  let ok := fresh "ok" in
  destruct c as [[chat uid info|uid msg|uid|uid|uid mem|uid| |days] now ok];
  unfold createdBy, step, usersOf, totalUsersOf, totalMessagesOf, statsOf, isAddMessage;
  simpl;
  unfold getUserSession, addMessage, getHistory, clearHistory, updateUserMemory,
    getUserMemory, getStatistics, cleanupInactiveUsers;
  unfold_m; unfold ensureInitialized;
  destruct cm as [[d|] [|] f w]; simpl.

Section Counters.

Variable config : BotConfig.

Lemma step_totalUsers c cm :
  totalUsersOf (step config c cm).2
  = totalUsersOf cm + Z.of_nat (createdBy config c cm).
Proof.
  step_cases c cm; rewrite ?size_dom_same; try lia;
    try (destruct (users d !! uid) as [u|] eqn:Hu; simpl);
    try case_bool_decide;
    destruct ok; simpl;
    rewrite ?size_dom_same, ?size_dom_deleteAll,
      ?(size_dom_insert_fresh _ _ _ Hu), ?(size_dom_insert_present _ _ _ _ Hu);
    lia.
Qed.

Lemma step_totalMessages_mono c cm :
  totalMessagesOf cm ≤ totalMessagesOf (step config c cm).2.
Proof.
  step_cases c cm; try lia;
    try (destruct (users d !! uid) as [u|] eqn:Hu; simpl);
    try case_bool_decide;
    try destruct ok; simpl; lia.
Qed.

Lemma step_totalMessages_success c cm :
  isAddMessage c = true → (step config c cm).1 = true →
  totalMessagesOf (step config c cm).2 = totalMessagesOf cm + 1.
Proof.
  step_cases c cm; try done;
    try (destruct (users d !! uid) as [u|] eqn:Hu; simpl); try done;
    destruct ok; simpl; try done; intros; lia.
Qed.

Lemma step_totalMessages_other c cm :
  isAddMessage c = false →
  totalMessagesOf (step config c cm).2 = totalMessagesOf cm.
Proof.
  step_cases c cm; try done;
    try (destruct (users d !! uid) as [u|] eqn:Hu; simpl);
    try case_bool_decide;
    try destruct ok; simpl; try done.
Qed.

Lemma step_totalMessages_fsOk c cm :
  c_fsOk c = true →
  totalMessagesOf (step config c cm).2
  = totalMessagesOf cm + (if isAddMessage c && (step config c cm).1 then 1 else 0).
Proof.
  step_cases c cm; intros Hok; try lia;
    try (destruct (users d !! uid) as [u|] eqn:Hu; simpl);
    try case_bool_decide;
    try destruct ok; simpl; try done; lia.
Qed.

Lemma step_success_fsOk c cm :
  isAddMessage c = true → (step config c cm).1 = true → c_fsOk c = true.
Proof.
  step_cases c cm; try done;
    try (destruct (users d !! uid) as [u|] eqn:Hu; simpl); try done;
    by destruct ok.
Qed.

Lemma run_totalUsers cs cm :
  totalUsersOf (run config cs cm) = totalUsersOf cm + Z.of_nat (created config cs cm).
Proof.
  revert cm. induction cs as [|c cs IH]; intros cm; simpl.
  - unfold run. simpl. lia.
  - unfold run in *. simpl. rewrite IH, step_totalUsers. lia.
Qed.

Lemma run_totalMessages_lower cs cm :
  totalMessagesOf cm + Z.of_nat (appended config cs cm)
  ≤ totalMessagesOf (run config cs cm).
Proof.
  revert cm. induction cs as [|c cs IH]; intros cm; simpl.
  - unfold run. simpl. lia.
  - unfold run in *. simpl. specialize (IH (step config c cm).2).
    destruct (isAddMessage c && (step config c cm).1) eqn:Hc.
    + apply andb_prop in Hc as [Ha Hs].
      rewrite (step_totalMessages_success _ _ Ha Hs) in IH. lia.
    + pose proof (step_totalMessages_mono c cm). lia.
Qed.

Lemma run_totalMessages_fsOk cs cm :
  Forall (λ c, c_fsOk c = true) cs →
  totalMessagesOf (run config cs cm)
  = totalMessagesOf cm + Z.of_nat (appended config cs cm).
Proof.
  intros Hall. revert cm. induction Hall as [|c cs Hc Hall IH]; intros cm; simpl.
  - unfold run. simpl. lia.
  - unfold run in *. simpl. rewrite IH, (step_totalMessages_fsOk _ _ Hc).
    destruct (isAddMessage c && (step config c cm).1); lia.
Qed.

End Counters.

Lemma freshManager_counters now fsOk :
  totalUsersOf (freshManager now fsOk) = 0 ∧ totalMessagesOf (freshManager now fsOk) = 0.
Proof. by destruct fsOk. Qed.

(** C7: from a manager initialized next to no file, after any run of
    calls [totalUsers] equals the number of sessions created along the run
    (deletions by the sweep do not lower it); every [addMessage] that
    returns normally raises [totalMessages] by exactly one, no other kind of
    call changes it, and over a run [totalMessages] is at least the number of
    successful appends and equals it when no disk write fails; no call ever
    lowers either counter. *)
Theorem counters_invariant config cs now0 fsOk0 :
  totalUsersOf (run config cs (freshManager now0 fsOk0))
  = Z.of_nat (created config cs (freshManager now0 fsOk0))
  ∧ (∀ cm, totalUsersOf (run config cs cm)
           = totalUsersOf cm + Z.of_nat (created config cs cm))
  ∧ (∀ c cm, isAddMessage c = true → (step config c cm).1 = true →
             totalMessagesOf (step config c cm).2 = totalMessagesOf cm + 1)
  ∧ (∀ c cm, isAddMessage c = false →
             totalMessagesOf (step config c cm).2 = totalMessagesOf cm)
  ∧ Z.of_nat (appended config cs (freshManager now0 fsOk0))
    ≤ totalMessagesOf (run config cs (freshManager now0 fsOk0))
  ∧ (Forall (λ c, c_fsOk c = true) cs →
     totalMessagesOf (run config cs (freshManager now0 fsOk0))
     = Z.of_nat (appended config cs (freshManager now0 fsOk0)))
  ∧ (∀ c cm, totalUsersOf cm ≤ totalUsersOf (step config c cm).2
             ∧ totalMessagesOf cm ≤ totalMessagesOf (step config c cm).2).
Proof.
  destruct (freshManager_counters now0 fsOk0) as [Hu Hm].
  split; [rewrite run_totalUsers; lia|].
  split; [intros; apply run_totalUsers|].
  split; [apply step_totalMessages_success|].
  split; [apply step_totalMessages_other|].
  split; [pose proof (run_totalMessages_lower config cs (freshManager now0 fsOk0)); lia|].
  split; [intros Hall; rewrite run_totalMessages_fsOk by done; lia|].
  intros c cm. split; [rewrite step_totalUsers; lia | apply step_totalMessages_mono].
Qed.

(** A run that creates a session, sweeps it away and creates it again:
    two sessions were created, one is live, and [totalUsers] is 2. *)
Example totalUsers_survives_sweep :
  let cs := [mkCall (OpGetUserSession 7 42 None) 10 true;
             mkCall (OpCleanupInactiveUsers 0) 20 true;
             mkCall (OpGetUserSession 7 42 None) 30 true] in
  let cm := run sampleConfig cs (freshManager 0 true) in
  totalUsersOf cm = 2 ∧ created sampleConfig cs (freshManager 0 true) = 2%nat
  ∧ size (usersOf cm) = 1%nat.
Proof. by vm_compute. Qed.

(** ** Prompt assembly *)

Section PromptFacts.

Variable config : BotConfig.

Lemma foldl_skip_system acc messages :
  foldl (λ hist message,
           if is_system message then hist
           else hist ++ [mkContent (remapRole (role message)) [mkPart (content message)]])
        acc messages
  = acc ++ map toContent (filter (λ m, role m ≠ System) messages).
Proof.
  revert acc. induction messages as [|m messages IH]; intros acc; simpl.
  - by rewrite app_nil_r.
  - rewrite IH. unfold is_system. rewrite filter_cons.
    case_bool_decide as Hm.
    + rewrite decide_False; [done | intros Hne; exact (Hne Hm)].
    + rewrite decide_True by done. simpl. by rewrite <- app_assoc.
Qed.

(** The assembled turns: the instruction block, the fixed acknowledgement,
    then every non-system message in order with its role remapped. *)
Lemma prepareConversationHistory_shape this messages userMemory :
  prepareConversationHistory config this messages userMemory
  = mkContent RoleUser [mkPart (buildSystemMessage config this userMemory)]
    :: mkContent RoleModel [mkPart acknowledgement]
    :: map toContent (filter (λ m, role m ≠ System) messages).
Proof. unfold prepareConversationHistory. by rewrite foldl_skip_system. Qed.

End PromptFacts.

(** The only part of the configuration the assembler reads is the
    [enableUserMemory] flag. *)
Lemma prepareConversationHistory_config config config' this messages userMemory :
  enableUserMemory config = enableUserMemory config' →
  prepareConversationHistory config this messages userMemory
  = prepareConversationHistory config' this messages userMemory.
Proof.
  intros Hcfg. rewrite !prepareConversationHistory_shape.
  unfold buildSystemMessage. by rewrite Hcfg.
Qed.

Lemma append_empty_r s : s +:+ "" = s.
Proof.
  induction s as [|c s IH]; [done|].
  change (String c (s +:+ "") = String c s). by f_equal.
Qed.

Lemma append_assoc_string s t r : (s +:+ t) +:+ r = s +:+ t +:+ r.
Proof.
  induction s as [|c s IH]; [done|].
  change (String c ((s +:+ t) +:+ r) = String c (s +:+ t +:+ r)). by f_equal.
Qed.

Lemma add_paragraph s label o :
  (if truthy o then s +:+ nl +:+ nl +:+ label +:+ default "" o else s)
  = s +:+ paragraph label o.
Proof.
  destruct o as [t|]; simpl; [|by rewrite append_empty_r].
  destruct (String.eqb t ""); simpl; [by rewrite append_empty_r | done].
Qed.

Lemma buildMemoryContext_summary m : buildMemoryContext m = memorySummary m.
Proof.
  unfold buildMemoryContext, memorySummary, clause, renderPreference, truthy.
  destruct (nonempty (interests m)), (nonempty (goals m)),
    (negb (String.eqb (communicationStyle m) "")), (nonempty (preferences m));
    reflexivity.
Qed.

Lemma buildSystemMessage_block config this userMemory :
  buildSystemMessage config this userMemory
  = instructionBlock (enableUserMemory config) (customPrompt this) userMemory.
Proof.
  assert (Hblock : ∀ p P1 P2 P3 P4,
            (((p +:+ P1) +:+ P2) +:+ P3) +:+ P4 = String.concat "" [p; P1; P2; P3; P4]).
  { intros. by rewrite !append_assoc_string. }
  unfold instructionBlock. rewrite <- Hblock. clear Hblock.
  unfold buildSystemMessage. cbv zeta.
  set (doc := customPrompt this).
  assert (Hp : (if truthy (persona doc) then default defaultPersona (persona doc)
                else defaultPersona) = personaText doc).
  { unfold personaText. destruct (persona doc) as [p|]; [|done]. simpl.
    by destruct (String.eqb p ""). }
  rewrite Hp, !add_paragraph.
  set (s2 := (personaText doc +:+ _) +:+ _).
  assert (Hi : match system_instructions doc with
               | Some instrs =>
                   if nonempty instrs
                   then s2 +:+ nl +:+ nl +:+ "Дополнительные инструкции:" +:+ nl
                        +:+ join nl instrs
                   else s2
               | None => s2
               end = s2 +:+ instructionsParagraph doc).
  { unfold instructionsParagraph.
    destruct (system_instructions doc) as [[|i instrs]|]; simpl;
      by rewrite ?append_empty_r. }
  rewrite Hi. set (s3 := s2 +:+ _).
  unfold memoryParagraph.
  destruct userMemory as [m|]; [|by rewrite append_empty_r].
  destruct (enableUserMemory config); [|by rewrite append_empty_r].
  rewrite buildMemoryContext_summary.
  apply (add_paragraph s3 "Контекст пользователя: " (Some (memorySummary m))).
Qed.

Lemma omap_historyTurn messages :
  omap historyTurn messages = map toContent (filter (λ m, role m ≠ System) messages).
Proof.
  induction messages as [|m messages IH]; [done|].
  rewrite filter_cons.
  change (omap historyTurn (m :: messages))
    with (match historyTurn m with
          | Some y => y :: omap historyTurn messages
          | None => omap historyTurn messages
          end).
  rewrite IH. unfold historyTurn, toContent, remapRole.
  destruct (role m) eqn:Hrole.
  - rewrite decide_True by done. simpl. by rewrite Hrole.
  - rewrite decide_True by done. simpl. by rewrite Hrole.
  - rewrite decide_False; [done | intros Hne; by apply Hne].
Qed.

(** C9 (as amended): the assembled turn sequence is a function of the
    history, the memory profile, the persona document and the
    [enableUserMemory] flag of the configuration, and of nothing else: it
    equals [assemblePrompt] of these four, so two invocations, on any service
    objects and under any configurations that agree on the persona document
    and on the flag, return the same sequence. *)
Theorem prompt_function_of_four_inputs config1 config2 this1 this2 messages userMemory :
  enableUserMemory config1 = enableUserMemory config2 →
  customPrompt this1 = customPrompt this2 →
  prepareConversationHistory config1 this1 messages userMemory
  = assemblePrompt (enableUserMemory config1) (customPrompt this1) messages userMemory
  ∧ prepareConversationHistory config2 this2 messages userMemory
    = prepareConversationHistory config1 this1 messages userMemory.
Proof.
  intros Hflag Hdoc.
  assert (Hfun : ∀ config this,
            prepareConversationHistory config this messages userMemory
            = assemblePrompt (enableUserMemory config) (customPrompt this)
                messages userMemory).
  { intros config this. rewrite prepareConversationHistory_shape.
    unfold assemblePrompt. by rewrite buildSystemMessage_block, omap_historyTurn. }
  split; [apply Hfun|]. by rewrite !Hfun, Hflag, Hdoc.
Qed.

Lemma prompt_function_of_four_inputs_witness :
  prepareConversationHistory (mkBotConfig 30 true) serviceB
    [sys "seed"; usr "hi"; asst "hello"] (Some defaultMemory)
  = prepareConversationHistory sampleConfig serviceA
      [sys "seed"; usr "hi"; asst "hello"] (Some defaultMemory).
Proof.
  refine (proj2 (prompt_function_of_four_inputs sampleConfig (mkBotConfig 30 true)
            serviceA serviceB _ _ _ _)); reflexivity.
Defined.

(** C9, counterexample: the same history, memory profile and persona
    document give two different turn sequences under two configurations that
    differ in [enableUserMemory]: with the flag set the instruction turn
    carries the memory summary, without it it does not. *)
Lemma prompt_depends_on_enableUserMemory :
  prepareConversationHistory (mkBotConfig 3 true) serviceA [usr "hi"] (Some defaultMemory)
  ≠ prepareConversationHistory (mkBotConfig 3 false) serviceA [usr "hi"] (Some defaultMemory).
Proof.
  intros Heq. apply (f_equal (λ l, (λ c, String.length (text c)) <$> (head l ≫= λ c, head (parts c)))) in Heq.
  vm_compute in Heq. discriminate Heq.
Qed.

(** * Further properties of the session store *)

(** ** Start-up *)

(** X1: [initialize] next to an absent or unreadable file. If the write
    succeeds, the manager holds the empty document stamped with the current
    time, the disk holds the same document, and one write was made. If the
    write fails, [initialize] throws, the manager stays uninitialized, and
    every later call throws without changing anything. *)
Theorem initialize_without_file cm now :
  file cm = None → isInitialized cm = false →
  initialize now true cm
  = (Ok (), mkContextManager (Some (emptyDatabase now)) true
              (Some (emptyDatabase now)) (S (writes cm)))
  ∧ (initialize now false cm).1 = Throw WriteFailed
  ∧ isInitialized (initialize now false cm).2 = false
  ∧ file (initialize now false cm).2 = None
  ∧ ∀ config c,
      step config c (initialize now false cm).2 = (false, (initialize now false cm).2).
Proof.
  intros Hf Hi. unfold initialize. rewrite Hf. unfold_m. simpl.
  repeat split; try done.
  intros config c. rewrite Hi.
  destruct c as [[chat uid info|uid msg|uid|uid|uid mem|uid| |days] t ok]; reflexivity.
Qed.

Lemma initialize_without_file_witness :
  initialize 5 true (newContextManager None)
  = (Ok (), mkContextManager (Some (emptyDatabase 5)) true (Some (emptyDatabase 5)) 1).
Proof.
  refine (proj1 (initialize_without_file (newContextManager None) 5 _ _)); reflexivity.
Defined.

(** X2: before [initialize] has succeeded every method throws the
    not-initialized error and leaves the manager as it was. *)
Theorem uninitialized_use config cm :
  isInitialized cm = false ∨ data cm = None →
  (∀ now fsOk chatId userId userInfo,
     getUserSession now fsOk chatId userId userInfo cm = (Throw NotInitialized, cm))
  ∧ (∀ now fsOk userId message,
       addMessage config now fsOk userId message cm = (Throw NotInitialized, cm))
  ∧ (∀ userId, getHistory userId cm = (Throw NotInitialized, cm))
  ∧ (∀ now fsOk userId, clearHistory now fsOk userId cm = (Throw NotInitialized, cm))
  ∧ (∀ fsOk userId memory,
       updateUserMemory fsOk userId memory cm = (Throw NotInitialized, cm))
  ∧ (∀ userId, getUserMemory userId cm = (Throw NotInitialized, cm))
  ∧ getStatistics cm = (Throw NotInitialized, cm)
  ∧ (∀ now fsOk daysInactive,
       cleanupInactiveUsers now fsOk daysInactive cm = (Throw NotInitialized, cm)).
Proof.
  intros Hun.
  assert (He : ensureInitialized cm = (Throw NotInitialized, cm)).
  { unfold ensureInitialized. destruct Hun as [-> | ->]; [done|].
    by destruct (isInitialized cm). }
  repeat split; intros;
    unfold getUserSession, addMessage, getHistory, clearHistory, updateUserMemory,
      getUserMemory, getStatistics, cleanupInactiveUsers;
    unfold_m; by rewrite He.
Qed.

Lemma uninitialized_use_witness :
  getStatistics (newContextManager None) = (Throw NotInitialized, newContextManager None).
Proof.
  destruct (uninitialized_use sampleConfig (newContextManager None))
    as (_ & _ & _ & _ & _ & _ & Hs & _); [by left | exact Hs].
Defined.

(** ** Clearing a history *)

(** X3: after [clearHistory] on an existing session the stored history
    is exactly one message, the system placeholder stamped with the current
    time, and [getHistory] returns it; the memory profile, the identifiers
    and both time stamps of the session and the statistics are as before,
    and the call fails only if the write does. *)
Theorem clearHistory_present cm d uid u now fsOk :
  ready cm d → users d !! uid = Some u →
  let cm' := (clearHistory now fsOk uid cm).2 in
  historyOf uid cm' = Some [mkChatMessage System placeholder now None]
  ∧ getHistory uid cm' = (Ok [mkChatMessage System placeholder now None], cm')
  ∧ memoryOf uid cm' = Some (userMemory u)
  ∧ lastActivityOf uid cm' = Some (lastActivity u)
  ∧ (∃ u', sessionOf uid cm' = Some u'
           ∧ chatId u' = chatId u ∧ userId u' = userId u
           ∧ username u' = username u ∧ firstName u' = firstName u
           ∧ lastName u' = lastName u ∧ createdAt u' = createdAt u)
  ∧ statsOf cm' = Some (statistics d)
  ∧ (clearHistory now fsOk uid cm).1 = (if fsOk then Ok () else Throw WriteFailed).
Proof.
  intros Hr Hu cm'.
  assert (Hs : sessionOf uid cm' = Some (set_history [seedMessage now] u)
               ∧ isInitialized cm' = true
               ∧ statsOf cm' = Some (statistics d)
               ∧ (clearHistory now fsOk uid cm).1
                 = (if fsOk then Ok () else Throw WriteFailed)).
  { unfold cm', clearHistory, sessionOf, statsOf. unfold_m.
    rewrite (ensureInitialized_ready _ _ Hr), Hu. destruct Hr as [Hi _].
    destruct fsOk; simpl; by rewrite lookup_insert_eq. }
  destruct Hs as (Hs & Hi & Hst & Hres).
  split; [unfold historyOf; by rewrite Hs|].
  split.
  { unfold getHistory, ensureInitialized. unfold_m. rewrite Hi.
    unfold sessionOf in Hs. destruct (data cm') as [d'|]; [|done]. simpl in *.
    by rewrite Hs. }
  split; [unfold memoryOf; by rewrite Hs|].
  split; [unfold lastActivityOf; by rewrite Hs|].
  split; [eexists; split; [exact Hs | by repeat split]|].
  by split.
Qed.

Lemma clearHistory_present_witness :
  historyOf 1 (clearHistory 200 true 1 sampleManager).2
  = Some [mkChatMessage System placeholder 200 None].
Proof.
  refine (proj1 (clearHistory_present sampleManager sampleData 1 sampleSession 200 true _ _)).
  - split; reflexivity.
  - reflexivity.
Defined.

(** ** Persistence *)

Lemma cleanupInactiveUsers_cases cm d now fsOk daysInactive :
  ready cm d →
  cleanupInactiveUsers now fsOk daysInactive cm
  = match inactiveUserIds (cutoffTime now daysInactive) (users d) with
    | [] => (Ok (), cm)
    | ids =>
        save fsOk (mkContextManager (Some (set_users (deleteAll ids (users d)) d))
                     (isInitialized cm) (file cm) (writes cm))
    end.
Proof.
  intros Hr. unfold cleanupInactiveUsers. unfold_m.
  rewrite (ensureInitialized_ready _ _ Hr).
  destruct (inactiveUserIds _ _) as [|k ids]; simpl.
  - destruct Hr as [Hi Hd]. destruct cm as [dt ini f w]. simpl in *. subst.
    by destruct d.
  - done.
Qed.

Lemma step_ready config c cm d :
  ready cm d → ∃ d', ready (step config c cm).2 d'.
Proof.
  intros Hr.
  destruct c as [[chat uid info|uid msg|uid|uid|uid mem|uid| |days] t ok];
    unfold step; simpl.
  8: { rewrite (cleanupInactiveUsers_cases _ _ _ _ _ Hr).
       destruct (inactiveUserIds _ _); [by exists d|].
       eexists. split; [rewrite save_isInitialized; apply Hr | by rewrite save_data]. }
  all: unfold getUserSession, addMessage, getHistory, clearHistory, updateUserMemory,
         getUserMemory, getStatistics; unfold_m;
       rewrite (ensureInitialized_ready _ _ Hr);
       try (destruct (users d !! uid) as [u|]); try destruct ok; simpl;
       try (by exists d);
       destruct Hr as [Hi Hd]; eexists; split; simpl; eauto.
Qed.

Lemma step_inSync config c cm d :
  ready cm d → c_fsOk c = true → inSync cm → inSync (step config c cm).2.
Proof.
  intros Hr Hok Hs.
  destruct c as [[chat uid info|uid msg|uid|uid|uid mem|uid| |days] t ok];
    simpl in Hok; subst ok; unfold step; simpl.
  8: { rewrite (cleanupInactiveUsers_cases _ _ _ _ _ Hr).
       by destruct (inactiveUserIds _ _). }
  all: unfold getUserSession, addMessage, getHistory, clearHistory, updateUserMemory,
         getUserMemory, getStatistics; unfold_m;
       rewrite (ensureInitialized_ready _ _ Hr);
       try (destruct (users d !! uid) as [u|]); simpl; done.
Qed.

Lemma run_snoc config cs c cm :
  run config (cs ++ [c]) cm = (step config c (run config cs cm)).2.
Proof. unfold run. by rewrite foldl_app. Qed.

(** X4: as long as no write fails, the disk holds the in-memory document
    after every call, so a manager restarted on that file starts from the
    very document the old one held, without writing. *)
Theorem restart_recovers_state config cs cm d :
  ready cm d → inSync cm → Forall (λ c, c_fsOk c = true) cs →
  inSync (run config cs cm)
  ∧ ∀ now fsOk,
      let cm' := (initialize now fsOk (newContextManager (file (run config cs cm)))).2 in
      data cm' = data (run config cs cm)
      ∧ isInitialized cm' = true
      ∧ writes cm' = 0%nat.
Proof.
  intros Hr Hs Hall.
  assert (Hinv : inSync (run config cs cm) ∧ ∃ d', ready (run config cs cm) d').
  { induction cs as [|c cs IH] using rev_ind.
    - split; [done | by exists d].
    - apply Forall_app in Hall as [Hall Hc]. apply Forall_inv in Hc.
      destruct (IH Hall) as [Hs' [d' Hr']]. rewrite run_snoc.
      simpl in Hc.
      split; [exact (step_inSync _ _ _ _ Hr' Hc Hs') | exact (step_ready _ _ _ _ Hr')]. }
  destruct Hinv as [Hs' [d' [_ Hd']]]. split; [done|].
  intros now fsOk. unfold initialize, newContextManager. simpl.
  rewrite Hs', Hd'. by unfold_m.
Qed.

Lemma restart_recovers_state_witness :
  inSync (run sampleConfig [mkCall (OpAddMessage 1 (usr "hi")) 150 true] sampleManager).
Proof.
  refine (proj1 (restart_recovers_state sampleConfig
            [mkCall (OpAddMessage 1 (usr "hi")) 150 true] sampleManager sampleData _ _ _)).
  - split; reflexivity.
  - reflexivity.
  - by repeat constructor.
Defined.

(** X5: a call made while writes fail keeps in memory exactly the
    mutation it would have made had the write succeeded: nothing is rolled
    back. It returns normally exactly when it would have completed no write,
    and it completes none. *)
Theorem failed_write_diverges config c cm :
  c_fsOk c = false →
  data (step config c cm).2
  = data (step config (mkCall (c_op c) (c_now c) true) cm).2
  ∧ writes (step config c cm).2 = writes cm
  ∧ ((step config c cm).1 = true
     ↔ (step config (mkCall (c_op c) (c_now c) true) cm).1 = true
       ∧ writes (step config (mkCall (c_op c) (c_now c) true) cm).2 = writes cm).
Proof.
  intros Hok.
  destruct c as [[chat uid info|uid msg|uid|uid|uid mem|uid| |days] t ok];
    simpl in Hok; subst ok; unfold step; simpl;
    unfold getUserSession, addMessage, getHistory, clearHistory, updateUserMemory,
      getUserMemory, getStatistics, cleanupInactiveUsers;
    unfold_m; unfold ensureInitialized;
    destruct cm as [[d|] [|] f w]; simpl;
    try (destruct (users d !! uid) as [u|]; simpl);
    try case_bool_decide; simpl;
    (split; [done|]; split; [done|]; split;
     [first [done | by intros [=]]
     | first [done | by intros [? ?] | intros [_ Hw]; simpl in Hw; lia]]).
Qed.

Lemma failed_write_diverges_witness :
  data (step sampleConfig (mkCall (OpAddMessage 1 (usr "hi")) 150 false) sampleManager).2
  = data (step sampleConfig (mkCall (OpAddMessage 1 (usr "hi")) 150 true) sampleManager).2.
Proof.
  refine (proj1 (failed_write_diverges sampleConfig
            (mkCall (OpAddMessage 1 (usr "hi")) 150 false) sampleManager _)).
  reflexivity.
Defined.

(** ** Isolation between users *)

Lemma step_other_session config c cm userId' :
  isCleanup (c_op c) = false → target (c_op c) ≠ Some userId' →
  sessionOf userId' (step config c cm).2 = sessionOf userId' cm.
Proof.
  intros Hcl Ht.
  destruct c as [[chat uid info|uid msg|uid|uid|uid mem|uid| |days] t ok];
    simpl in Hcl, Ht; try done; unfold step, sessionOf; simpl;
    unfold getUserSession, addMessage, getHistory, clearHistory, updateUserMemory,
      getUserMemory, getStatistics;
    unfold_m; unfold ensureInitialized;
    destruct cm as [[d|] [|] f w]; simpl; try done;
    try (destruct (users d !! uid) as [u|]; simpl); try destruct ok; simpl; try done;
    apply lookup_insert_ne; congruence.
Qed.

(** X6: a call addressed to one user never changes another user's
    session; only the sweep acts across users. *)
Theorem other_sessions_untouched config c cm userId' :
  isCleanup (c_op c) = false → target (c_op c) ≠ Some userId' →
  sessionOf userId' (step config c cm).2 = sessionOf userId' cm.
Proof. apply step_other_session. Qed.

Lemma other_sessions_untouched_witness :
  sessionOf 1 (step sampleConfig (mkCall (OpGetUserSession 7 2 None) 150 true)
                 sampleManager).2
  = sessionOf 1 sampleManager.
Proof.
  apply (other_sessions_untouched sampleConfig
           (mkCall (OpGetUserSession 7 2 None) 150 true) sampleManager 1).
  - reflexivity.
  - simpl. congruence.
Defined.

(** X7: whatever is called, a session that exists before and after the
    call keeps its identifiers, its display names and its creation time:
    [getUserSession] on a known user ignores the chat id and the user info
    it is given. *)
Theorem session_identity_stable config c cm uid u u' :
  sessionOf uid cm = Some u →
  sessionOf uid (step config c cm).2 = Some u' →
  chatId u' = chatId u ∧ userId u' = userId u
  ∧ username u' = username u ∧ firstName u' = firstName u ∧ lastName u' = lastName u
  ∧ createdAt u' = createdAt u.
Proof.
  destruct (isCleanup (c_op c)) eqn:Hcl.
  - destruct c as [[| | | | | | |days] t ok]; try done.
    unfold step, sessionOf. simpl.
    destruct (data cm) as [d|] eqn:Hd; [|done]. simpl.
    destruct (isInitialized cm) eqn:Hi.
    + rewrite (cleanupInactiveUsers_data cm d) by done. simpl.
      rewrite cleanup_lookup. intros ->. case_bool_decide; [done|].
      by intros [= <-].
    + unfold cleanupInactiveUsers, ensureInitialized. unfold_m. rewrite Hi. simpl.
      rewrite Hd. simpl. intros -> [= <-]. done.
  - destruct (decide (target (c_op c) = Some uid)) as [Ht|Ht].
    + destruct c as [[chat k info|k msg|k|k|k mem|k| |days] t ok];
        simpl in Ht; try done; injection Ht as ->;
        unfold step, sessionOf; simpl;
        unfold getUserSession, addMessage, getHistory, clearHistory, updateUserMemory,
          getUserMemory;
        unfold_m; unfold ensureInitialized;
        destruct cm as [[d|] [|] f w]; simpl; try done;
        intros Hu; rewrite Hu; try destruct ok; simpl;
        rewrite ?lookup_insert_eq, ?Hu; by intros [= <-].
    + rewrite (step_other_session _ _ _ _ Hcl Ht). intros -> [= <-]. done.
Qed.

Lemma session_identity_stable_witness :
  chatId (set_lastActivity 150 sampleSession) = chatId sampleSession
  ∧ username (set_lastActivity 150 sampleSession) = username sampleSession.
Proof.
  destruct (session_identity_stable sampleConfig
              (mkCall (OpGetUserSession 99 1 (Some (mkUserInfo (Some "new") None None)))
                 150 true)
              sampleManager 1 sampleSession (set_lastActivity 150 sampleSession)
              eq_refl eq_refl) as (Hc & _ & Hn & _).
  by split.
Defined.

(** ** Appending *)

Lemma last_drop_lt {A : Type} (k : nat) (l : list A) :
  (k < length l)%nat → last (drop k l) = last l.
Proof.
  revert k. induction l as [|x l IH]; intros k Hk; simpl in *; [lia|].
  destruct k as [|k]; [done|]. simpl.
  rewrite IH by lia. destruct l; [simpl in *; lia | done].
Qed.

Lemma last_cons_nonempty {A : Type} (x : A) (l : list A) :
  l ≠ [] → last (x :: l) = last l.
Proof. by destruct l. Qed.

Lemma slice_from_last {A : Type} (H : Z) (l : list A) :
  1 ≤ H → l ≠ [] →
  slice_from (- H + 1) l ≠ [] ∧ last (slice_from (- H + 1) l) = last l.
Proof.
  intros HH Hl. unfold slice_from.
  assert (0 < length l)%nat by (destruct l; [done | simpl; lia]).
  set (k := Z.to_nat _).
  assert (Hk : (k < length l)%nat).
  { unfold k. destruct (- H + 1 <? 0) eqn:E; lia. }
  split; [|by apply last_drop_lt].
  intros Hd. apply (f_equal length) in Hd. rewrite length_drop in Hd. simpl in Hd. lia.
Qed.

Lemma trimHistory_last config h m :
  1 ≤ maxHistoryLength config → last (trimHistory config (h ++ [m])) = Some m.
Proof.
  intros HH. unfold trimHistory.
  assert (Hne : h ++ [m] ≠ []) by (by destruct h).
  destruct (slice_from_last (maxHistoryLength config) (h ++ [m]) HH Hne) as [Hr Hl].
  rewrite last_snoc in Hl.
  destruct (_ >? _); [|apply last_snoc].
  destruct (find is_system (h ++ [m])); [|done].
  by rewrite last_cons_nonempty.
Qed.

(** X8: with a maximum of at least 1, the message just appended is the
    last entry of the stored history, trimmed or not. *)
Theorem addMessage_last config cm d uid u now fsOk message :
  1 ≤ maxHistoryLength config →
  ready cm d → users d !! uid = Some u →
  ∃ h', historyOf uid (addMessage config now fsOk uid message cm).2 = Some h'
        ∧ last h' = Some message.
Proof.
  intros HH Hr Hu. eexists. split.
  - unfold historyOf. rewrite (addMessage_sessionOf _ _ _ _ _ _ _ _ Hr Hu). reflexivity.
  - simpl. by apply trimHistory_last.
Qed.

Lemma addMessage_last_witness :
  ∃ h', historyOf 1 (addMessage configOne 150 true 1 (usr "hi") sampleManager).2 = Some h'
        ∧ last h' = Some (usr "hi").
Proof.
  apply (addMessage_last configOne sampleManager sampleData 1 sampleSession).
  - simpl. lia.
  - split; reflexivity.
  - reflexivity.
Defined.

(** X9: while the history stays within the maximum, an append keeps every
    earlier message in place and adds the new one at the end. *)
Theorem addMessage_within_cap config cm d uid u now fsOk message :
  ready cm d → users d !! uid = Some u →
  Z.of_nat (length (history u)) < maxHistoryLength config →
  historyOf uid (addMessage config now fsOk uid message cm).2
  = Some (history u ++ [message]).
Proof.
  intros Hr Hu Hlen. unfold historyOf.
  rewrite (addMessage_sessionOf _ _ _ _ _ _ _ _ Hr Hu). simpl.
  rewrite trimHistory_within; [done|]. rewrite length_app. simpl. lia.
Qed.

Lemma addMessage_within_cap_witness :
  historyOf 1 (addMessage sampleConfig 150 true 1 (usr "hi") sampleManager).2
  = Some (history sampleSession ++ [usr "hi"]).
Proof.
  apply (addMessage_within_cap sampleConfig sampleManager sampleData 1 sampleSession).
  - split; reflexivity.
  - reflexivity.
  - simpl. lia.
Defined.

(** ** Sweeping twice *)

(** X10: right after a sweep, a second sweep with the same or an earlier
    cutoff finds nothing to delete: it returns normally and leaves the
    manager, disk included, as the first sweep left it. *)
Theorem cleanupInactiveUsers_idempotent cm d now fsOk daysInactive now' fsOk' daysInactive' :
  ready cm d →
  cutoffTime now' daysInactive' ≤ cutoffTime now daysInactive →
  cleanupInactiveUsers now' fsOk' daysInactive'
    (cleanupInactiveUsers now fsOk daysInactive cm).2
  = (Ok (), (cleanupInactiveUsers now fsOk daysInactive cm).2).
Proof.
  intros Hr Hcut.
  destruct (step_ready sampleConfig (mkCall (OpCleanupInactiveUsers daysInactive) now fsOk)
              cm d Hr) as [d1 Hr1].
  unfold step in Hr1. simpl in Hr1.
  rewrite (cleanupInactiveUsers_cases _ _ _ _ _ Hr1).
  assert (Hd1 : users d1
                = deleteAll (inactiveUserIds (cutoffTime now daysInactive) (users d))
                    (users d)).
  { pose proof (cleanupInactiveUsers_data cm d now fsOk daysInactive Hr) as Hd.
    destruct Hr1 as [_ Hd1]. rewrite Hd1 in Hd. by injection Hd as ->. }
  destruct (inactiveUserIds _ (users d1)) as [|k ids] eqn:Hids; [done|].
  assert (Hin : k ∈ inactiveUserIds (cutoffTime now' daysInactive') (users d1))
    by (rewrite Hids; left).
  apply elem_of_inactiveUserIds in Hin as [u [Hu Hlt]].
  rewrite Hd1, cleanup_lookup in Hu.
  destruct (users d !! k) as [u0|]; [|done].
  case_bool_decide; [done|]. injection Hu as ->. lia.
Qed.

Lemma cleanupInactiveUsers_idempotent_witness :
  cleanupInactiveUsers (200 + 30 * msPerDay) true 30
    (cleanupInactiveUsers (200 + 30 * msPerDay) true 30 sampleManager).2
  = (Ok (), (cleanupInactiveUsers (200 + 30 * msPerDay) true 30 sampleManager).2).
Proof.
  apply (cleanupInactiveUsers_idempotent sampleManager sampleData).
  - split; reflexivity.
  - unfold cutoffTime. lia.
Defined.

(** ** Invariants of the stored histories *)

Section HistoryInvariant.

Variable config : BotConfig.
Variable P : list ChatMessage → Prop.
Variable okMsg : ChatMessage → Prop.

Hypothesis P_seed : ∀ t, P [seedMessage t].
Hypothesis P_add : ∀ h m, okMsg m → P h → P (trimHistory config (h ++ [m])).

Lemma step_allHistories c cm :
  (∀ m, appendedMessage (c_op c) = Some m → okMsg m) →
  allHistories P cm → allHistories P (step config c cm).2.
Proof.
  intros Hmsg Hall uid' u'.
  destruct (isCleanup (c_op c)) eqn:Hcl.
  - destruct c as [[| | | | | | |days] t ok]; try done.
    unfold step, sessionOf. simpl.
    destruct (data cm) as [d|] eqn:Hd.
    + destruct (isInitialized cm) eqn:Hi.
      * rewrite (cleanupInactiveUsers_data cm d) by done. simpl.
        rewrite cleanup_lookup.
        destruct (users d !! uid') as [u|] eqn:Hu; [|done].
        case_bool_decide; [done|]. intros [= <-].
        apply (Hall uid'). unfold sessionOf. by rewrite Hd.
      * unfold cleanupInactiveUsers, ensureInitialized. unfold_m. rewrite Hi. simpl.
        rewrite Hd. simpl. intros Hu. apply (Hall uid'). unfold sessionOf. by rewrite Hd.
    + unfold cleanupInactiveUsers, ensureInitialized. unfold_m. rewrite Hd.
      destruct (isInitialized cm); simpl; by rewrite Hd.
  - destruct (decide (target (c_op c) = Some uid')) as [Ht|Ht].
    + specialize (Hall uid'). revert Hall Hmsg.
      destruct c as [[chat k info|k msg|k|k|k mem|k| |days] t ok];
        simpl in Ht; try done; injection Ht as ->;
        unfold step, sessionOf; simpl;
        unfold getUserSession, addMessage, getHistory, clearHistory, updateUserMemory,
          getUserMemory;
        unfold_m; unfold ensureInitialized;
        destruct cm as [[d|] [|] f w]; simpl; try done;
        intros Hall Hmsg;
        try (destruct (users d !! uid') as [u|] eqn:Hu; simpl);
        try destruct ok; simpl; rewrite ?lookup_insert_eq, ?Hu;
        try (intros [= <-]; simpl); eauto.
    + rewrite (step_other_session _ _ _ _ Hcl Ht). apply Hall.
Qed.

Lemma run_allHistories cs cm :
  Forall (λ c, ∀ m, appendedMessage (c_op c) = Some m → okMsg m) cs →
  allHistories P cm → allHistories P (run config cs cm).
Proof.
  intros Hcs. revert cm. induction Hcs as [|c cs Hc Hcs IH]; intros cm Hall; [done|].
  unfold run in *. simpl. apply IH. by apply step_allHistories.
Qed.

End HistoryInvariant.

Lemma freshManager_allHistories P now fsOk : allHistories P (freshManager now fsOk).
Proof. intros uid u. by destruct fsOk. Qed.

Lemma Forall_any_call (Q : ChatMessage → Prop) cs :
  (∀ m, Q m) → Forall (λ c, ∀ m, appendedMessage (c_op c) = Some m → Q m) cs.
Proof. intros HQ. apply Forall_forall. intros c _ m _. apply HQ. Qed.

(** X11: whatever the calls and whatever the maximum, every stored
    history keeps a system message at index 0, provided the histories the
    run starts from do (a manager initialized without a file has none). In
    particular no stored history is ever empty. *)
Theorem run_starts_with_system config cs cm :
  allHistories startsWithSystem cm →
  allHistories startsWithSystem (run config cs cm)
  ∧ ∀ now fsOk, allHistories startsWithSystem (run config cs (freshManager now fsOk)).
Proof.
  assert (Hrun : ∀ cm', allHistories startsWithSystem cm' →
                        allHistories startsWithSystem (run config cs cm')).
  { intros cm'. apply run_allHistories with (okMsg := λ _, True).
    - intros t. by exists (seedMessage t), [].
    - intros h m _ (s & rest & -> & Hs).
      destruct (trimHistory_head_system config s (rest ++ [m])) as [rest' Hrest].
      { unfold is_system. by rewrite bool_decide_eq_true_2. }
      exists s, rest'. split; [exact Hrest | exact Hs].
    - by apply Forall_any_call. }
  intros Hall. split; [by apply Hrun|].
  intros now fsOk. apply Hrun, freshManager_allHistories.
Qed.

Lemma run_starts_with_system_witness :
  allHistories startsWithSystem (run configOne sampleRun (freshManager 0 true)).
Proof.
  refine (proj1 (run_starts_with_system configOne sampleRun (freshManager 0 true) _)).
  apply freshManager_allHistories.
Defined.

(** X12: with a maximum [H >= 2], every call keeps every stored history
    within [H] messages; starting from a manager initialized without a file
    no history ever exceeds [H]. *)
Theorem run_bounded config cs cm :
  2 ≤ maxHistoryLength config →
  allHistories (λ h, Z.of_nat (length h) ≤ maxHistoryLength config) cm →
  allHistories (λ h, Z.of_nat (length h) ≤ maxHistoryLength config) (run config cs cm).
Proof.
  intros HH. apply run_allHistories with (okMsg := λ _, True).
  - intros t. simpl. lia.
  - intros h m _ _. by apply trimHistory_length_bound.
  - by apply Forall_any_call.
Qed.

Lemma run_bounded_witness :
  allHistories (λ h, Z.of_nat (length h) ≤ maxHistoryLength sampleConfig)
    (run sampleConfig sampleRun (freshManager 0 true)).
Proof.
  apply (run_bounded sampleConfig sampleRun (freshManager 0 true)).
  - simpl. lia.
  - apply freshManager_allHistories.
Defined.

Lemma trimHistory_seeded config s rest m :
  2 ≤ maxHistoryLength config →
  role s = System → Forall (λ x, role x ≠ System) rest → role m ≠ System →
  seededHistory (trimHistory config ((s :: rest) ++ [m])).
Proof.
  intros HH Hs Hrest Hm.
  assert (Hall : Forall (λ x, role x ≠ System) (rest ++ [m])).
  { apply Forall_app. split; [done | by constructor]. }
  destruct (Z.le_gt_cases (Z.of_nat (length ((s :: rest) ++ [m])))
              (maxHistoryLength config)) as [Hle|Hgt].
  - rewrite trimHistory_within by done. by exists s, (rest ++ [m]).
  - rewrite trimHistory_over by lia. unfold code_retention. simpl find.
    unfold is_system at 1. rewrite bool_decide_eq_true_2 by done.
    exists s, (takeLast (Z.to_nat (maxHistoryLength config - 1)) ((s :: rest) ++ [m])).
    split; [done|]. split; [done|].
    unfold takeLast. simpl length in *.
    replace (S (length (rest ++ [m])) - Z.to_nat (maxHistoryLength config - 1))%nat
      with (S (length (rest ++ [m]) - Z.to_nat (maxHistoryLength config - 1)))%nat
      by lia.
    simpl. by apply Forall_drop.
Qed.

(** X13: with a maximum [H >= 2], as long as no system message is
    appended (the bot's handlers append only user and assistant messages),
    every stored history consists of one system message at index 0 followed
    by non-system messages only. *)
Theorem run_single_system config cs cm :
  2 ≤ maxHistoryLength config → appendsNoSystem cs →
  allHistories seededHistory cm →
  allHistories seededHistory (run config cs cm).
Proof.
  intros HH Hcs. apply run_allHistories with (okMsg := λ m, role m ≠ System).
  - intros t. exists (seedMessage t), []. by repeat split.
  - intros h m Hm (s & rest & -> & Hs & Hrest). by apply trimHistory_seeded.
  - exact Hcs.
Qed.

Lemma run_single_system_witness :
  allHistories seededHistory (run sampleConfig sampleRun (freshManager 0 true)).
Proof.
  apply (run_single_system sampleConfig sampleRun (freshManager 0 true)).
  - simpl. lia.
  - unfold appendsNoSystem, sampleRun.
    repeat (constructor; [by intros m [= <-] || by intros m [=] |]).
    constructor.
  - apply freshManager_allHistories.
Defined.

(** * Further properties of prompt assembly *)

(** X14: the assembled sequence is the instruction turn (role user), the
    fixed acknowledgement (role model), then one turn per non-system message
    of the history, in order, a user message as role user and an assistant
    message as role model; system messages of the history produce no turn. *)
Theorem prompt_turns config this messages userMemory :
  prepareConversationHistory config this messages userMemory
  = [mkContent RoleUser [mkPart (buildSystemMessage config this userMemory)];
     mkContent RoleModel [mkPart acknowledgement]]
    ++ map (λ m, mkContent (if bool_decide (role m = User) then RoleUser else RoleModel)
                   [mkPart (content m)])
         (nonSystem messages)
  ∧ length (prepareConversationHistory config this messages userMemory)
    = (2 + length (nonSystem messages))%nat.
Proof.
  rewrite prepareConversationHistory_shape. simpl. split.
  - do 2 f_equal. apply map_ext. intros m. unfold toContent, remapRole.
    by destruct (role m).
  - by rewrite length_map.
Qed.

(** X15: the prompt grows with the history: the turns for [m1 ++ m2] are
    the turns for [m1] followed by the turns of the non-system messages of
    [m2]; and dropping the system messages from the history changes
    nothing. *)
Theorem prompt_incremental config this m1 m2 userMemory :
  prepareConversationHistory config this (m1 ++ m2) userMemory
  = prepareConversationHistory config this m1 userMemory
    ++ map toContent (nonSystem m2)
  ∧ prepareConversationHistory config this (nonSystem m1) userMemory
    = prepareConversationHistory config this m1 userMemory.
Proof.
  rewrite !prepareConversationHistory_shape. unfold nonSystem. split.
  - by rewrite filter_app, map_app.
  - do 3 f_equal. induction m1 as [|m l IH]; [done|].
    rewrite !filter_cons. destruct (decide (role m ≠ System)); [|done].
    rewrite filter_cons. rewrite decide_True by done. by rewrite IH.
Qed.

Lemma concat_cons_nonempty sep c s l : String.concat sep (String c s :: l) ≠ "".
Proof. by destruct l. Qed.

Lemma truthy_Some s : truthy (Some s) = false ↔ s = "".
Proof. by destruct s. Qed.

Lemma buildMemoryContext_empty userMemory :
  buildMemoryContext userMemory = ""
  ↔ interests userMemory = [] ∧ goals userMemory = []
    ∧ communicationStyle userMemory = "" ∧ preferences userMemory = [].
Proof.
  destruct userMemory as [ints prefs gls cs]. unfold buildMemoryContext, join. simpl.
  split.
  - destruct ints as [|i ints], gls as [|g gls], cs as [|c cs], prefs as [|p prefs];
      simpl; try done; intros H; by apply concat_cons_nonempty in H.
  - by intros (-> & -> & -> & ->).
Qed.

(** X16: the rendered memory summary is the empty string exactly when the
    profile has no interests, no goals, an empty communication style and no
    preferences. *)
Theorem buildMemoryContext_empty_iff userMemory :
  buildMemoryContext userMemory = ""
  ↔ interests userMemory = [] ∧ goals userMemory = []
    ∧ communicationStyle userMemory = "" ∧ preferences userMemory = [].
Proof. apply buildMemoryContext_empty. Qed.

(** X17: the memory profile reaches the prompt only when
    [enableUserMemory] is set and the profile renders to a non-empty
    summary: with the flag off, or with an empty profile, the prompt is the
    one built without any profile. *)
Theorem prompt_memory_gating config this messages userMemory :
  (enableUserMemory config = false
   ∨ (interests userMemory = [] ∧ goals userMemory = []
      ∧ communicationStyle userMemory = "" ∧ preferences userMemory = [])) →
  prepareConversationHistory config this messages (Some userMemory)
  = prepareConversationHistory config this messages None.
Proof.
  intros Hoff. rewrite !prepareConversationHistory_shape. do 3 f_equal.
  unfold buildSystemMessage.
  destruct Hoff as [-> | Hempty]; [done|].
  apply buildMemoryContext_empty in Hempty. rewrite Hempty.
  by destruct (enableUserMemory config).
Qed.

Lemma prompt_memory_gating_witness :
  prepareConversationHistory (mkBotConfig 3 false) serviceA [usr "hi"] (Some defaultMemory)
  = prepareConversationHistory (mkBotConfig 3 false) serviceA [usr "hi"] None.
Proof.
  apply (prompt_memory_gating (mkBotConfig 3 false) serviceA [usr "hi"] defaultMemory).
  by left.
Defined.

(** * Generation and the text handler *)

Section GenerationFacts.

Variable config : BotConfig.
Variable enableImageRecognition : bool.
Variable backend : Backend.

(** X18: every failure of [generateResponse] carries the fixed prefix,
    whatever failed underneath; every success is a text the backend
    returned, unchanged. *)
Theorem generateResponse_outcomes this messages userMemory imageData :
  match generateResponse config enableImageRecognition backend this messages
          userMemory imageData with
  | Failed e => ∃ e0, e = errorPrefix +:+ e0
  | Done t =>
      (∃ h txt, sendMessage backend h txt = Done t)
      ∨ (∃ txt image, generateContent backend txt image = Done t)
  end.
Proof.
  unfold generateResponse.
  destruct (startChat backend _) as [e|]; [by eexists|].
  assert (Htext :
    match match last messages with
          | None => Failed (errorPrefix +:+ "No message to process")
          | Some lastMessage =>
              rethrow (sendMessage backend
                         (prepareConversationHistory config this messages userMemory)
                         (content lastMessage))
          end with
    | Failed e => ∃ e0, e = errorPrefix +:+ e0
    | Done t =>
        (∃ h txt, sendMessage backend h txt = Done t)
        ∨ (∃ txt image, generateContent backend txt image = Done t)
    end).
  { destruct (last messages) as [m|]; [|by eexists].
    destruct (sendMessage backend _ _) eqn:Hs; simpl; [left; eauto | by eexists]. }
  destruct imageData as [image|]; [|exact Htext].
  destruct enableImageRecognition; [|exact Htext].
  destruct (generateContent backend _ _) eqn:Hg; simpl; [right; eauto | by eexists].
Qed.

(** X19: asked to answer an empty history without an image (or with
    image recognition switched off), [generateResponse] always fails, and
    never consults [sendMessage] or [generateContent]: [startChat] runs
    first, so if it rejects the history the failure carries its message, and
    otherwise the failure is "No message to process". *)
Theorem generateResponse_empty this userMemory imageData :
  imageData = None ∨ enableImageRecognition = false →
  generateResponse config enableImageRecognition backend this [] userMemory imageData
  = Failed (errorPrefix
            +:+ match startChat backend
                        (prepareConversationHistory config this [] userMemory) with
                | Some e => e
                | None => "No message to process"
                end).
Proof.
  intros Hpath. unfold generateResponse.
  destruct (startChat backend _) as [e|]; [done|]. simpl.
  destruct Hpath as [-> | ->]; [done | by destruct imageData].
Qed.


End GenerationFacts.

Lemma generateResponse_empty_witness :
  generateResponse sampleConfig false echoBackend serviceA [] None None
  = Failed (errorPrefix +:+ "No message to process").
Proof.
  apply (generateResponse_empty sampleConfig false echoBackend serviceA None None).
  by left.
Defined.


Section HandlerFacts.

Variable config : BotConfig.
Variable enableImageRecognition : bool.
Variable backend : Backend.
Variable this : GeminiService.

(** X21: an update without sender id, without text, or whose text starts
    with a slash is dropped by the text handler: nothing is sent, no session
    is created or touched, nothing is written. *)
Theorem handleTextMessage_ignores env chatId from text cm :
  ignoredText from text →
  handleTextMessage config enableImageRecognition backend this env chatId from text cm
  = (NoAction, cm).
Proof.
  unfold ignoredText, handleTextMessage.
  destruct from as [[uid info]|]; [|done]. destruct text as [txt|]; [|done].
  intros [-> | [-> | Hp]]; [done | | ].
  - by rewrite orb_true_r.
  - by rewrite Hp, orb_true_r.
Qed.

Lemma getUserSession_ok cm d now chatId uid userInfo :
  ready cm d →
  ∃ s d1 cm1,
    getUserSession now true chatId uid userInfo cm = (Ok s, cm1)
    ∧ ready cm1 d1 ∧ users d1 !! uid = Some s
    ∧ totalMessages (statistics d1) = totalMessages (statistics d).
Proof.
  intros Hr. unfold getUserSession. unfold_m.
  rewrite (ensureInitialized_ready _ _ Hr). destruct Hr as [Hi Hd].
  destruct (users d !! uid) as [u|]; simpl;
    eexists _, _, _; (split; [reflexivity|]); (split; [by split|]);
    simpl; by rewrite lookup_insert_eq.
Qed.

Lemma addMessage_ok cm d uid u now message :
  ready cm d → users d !! uid = Some u →
  ∃ cm',
    addMessage config now true uid message cm = (Ok (), cm')
    ∧ ready cm' (mkDatabaseSchema
                   (<[uid := set_history (trimHistory config (history u ++ [message]))
                               (set_lastActivity now u)]> (users d))
                   (incr_totalMessages (statistics d))).
Proof.
  intros Hr Hu. rewrite (addMessage_present _ _ _ _ _ _ _ _ Hr Hu).
  destruct Hr as [Hi Hd]. eexists. split; [reflexivity|]. by split.
Qed.

Lemma readers_ready cm d uid u :
  ready cm d → users d !! uid = Some u →
  getUserMemory uid cm = (Ok (Some (userMemory u)), cm)
  ∧ getHistory uid cm = (Ok (history u), cm).
Proof.
  intros Hr Hu. unfold getUserMemory, getHistory. unfold_m.
  by rewrite (ensureInitialized_ready _ _ Hr), Hu.
Qed.

(** The handler up to the generation call, when both writes succeed. *)
Lemma handleTextMessage_run env chatId uid info txt cm d :
  ready cm d → ¬ ignoredText (Some (uid, info)) (Some txt) →
  (e_session env).2 = true → (e_append1 env).2 = true →
  1 ≤ maxHistoryLength config →
  ∃ cm2 d2 u2,
    ready cm2 d2 ∧ users d2 !! uid = Some u2
    ∧ last (history u2) = Some (mkChatMessage User txt (e_userStamp env) (Some Text))
    ∧ totalMessages (statistics d2) = totalMessages (statistics d) + 1
    ∧ handleTextMessage config enableImageRecognition backend this env chatId
        (Some (uid, info)) (Some txt) cm
      = if negb (e_typingOk env) then (SendApology, cm2) else
        match generateResponse config enableImageRecognition backend this
                (history u2) (Some (userMemory u2)) None with
        | Failed _ => (SendApology, cm2)
        | Done responseText =>
            match addMessage config (e_append2 env).1 (e_append2 env).2 uid
                    (mkChatMessage Assistant responseText (e_replyStamp env) None) cm2 with
            | (Throw _, cm5) => (SendApology, cm5)
            | (Ok _, cm5) =>
                if e_replyOk env then (SendReply responseText, cm5)
                else (SendApology, cm5)
            end
        end.
Proof.
  intros Hr Hguard Hok1 Hok2 HH.
  destruct env as [[t1 ok1] t2 [t3 ok2] typingOk t4 [t5 ok3] replyOk].
  simpl in *. subst ok1 ok2.
  unfold handleTextMessage. simpl.
  assert (Hg : bool_decide (uid = 0) || String.eqb txt "" || String.prefix "/" txt = false).
  { apply not_true_is_false. intros Hg. apply Hguard. simpl.
    apply orb_prop in Hg as [Hg|Hg]; [|by right; right].
    apply orb_prop in Hg as [Hg|Hg].
    - left. by apply bool_decide_eq_true in Hg.
    - right; left. by apply String.eqb_eq. }
  rewrite Hg.
  destruct (getUserSession_ok cm d t1 chatId uid (Some info) Hr)
    as (s & d1 & cm1 & -> & Hr1 & Hu1 & Hm1).
  destruct (addMessage_ok cm1 d1 uid s t3
              (mkChatMessage User txt t2 (Some Text)) Hr1 Hu1) as (cm2 & -> & Hr2).
  eexists cm2, _, _. split; [exact Hr2|]. simpl.
  split; [apply lookup_insert_eq|].
  split; [simpl; by apply trimHistory_last|].
  split; [simpl; lia|].
  destruct typingOk; [|done]. simpl.
  destruct (readers_ready cm2 _ uid _ Hr2 ltac:(simpl; apply lookup_insert_eq))
    as [-> ->].
  reflexivity.
Qed.

End HandlerFacts.

Lemma handleTextMessage_ignores_witness :
  handleTextMessage sampleConfig false echoBackend serviceA calmEnv 7
    (Some (42, mkUserInfo None None None)) (Some "/start") (freshManager 0 true)
  = (NoAction, freshManager 0 true).
Proof.
  apply (handleTextMessage_ignores sampleConfig false echoBackend serviceA calmEnv 7
           (Some (42, mkUserInfo None None None)) (Some "/start")).
  simpl. by right; right.
Defined.

Lemma trimHistory_keeps_last_two config h u a :
  3 ≤ maxHistoryLength config → last h = Some u →
  ∃ pre, trimHistory config (h ++ [a]) = pre ++ [u; a].
Proof.
  intros HH [l ->]%last_Some. rewrite <- app_assoc. simpl.
  destruct (Z.le_gt_cases (Z.of_nat (length (l ++ [u; a])))
              (maxHistoryLength config)) as [Hle|Hgt].
  - exists l. by rewrite trimHistory_within.
  - rewrite trimHistory_over by lia. unfold code_retention, takeLast.
    rewrite length_app in *. simpl length in *.
    rewrite drop_app_le by lia.
    destruct (find is_system (l ++ [u; a])) as [s|];
      [by eexists (s :: drop _ l) | by eexists (drop _ l)].
Qed.

Lemma totalMessagesOf_ready cm d :
  ready cm d → totalMessagesOf cm = totalMessages (statistics d).
Proof. intros [_ Hd]. unfold totalMessagesOf, statsOf. by rewrite Hd. Qed.

Section HandlerOutcomes.

Variable config : BotConfig.
Variable enableImageRecognition : bool.
Variable backend : Backend.
Variable this : GeminiService.


(** X23: when every write succeeds, the typing indicator and the reply
    are accepted by the transport and the backend answers, with a maximum
    [H >= 3], the text handler sends back the backend's answer to exactly
    the user's text, the stored history ends with the user's message followed
    by the assistant's reply, and [totalMessages] has grown by two. If only
    the sending of the reply is rejected, the store ends up the same but the
    handler sends the apology. *)
Theorem handleTextMessage_success env chatId uid info txt cm d :
  ready cm d → ¬ ignoredText (Some (uid, info)) (Some txt) →
  (e_session env).2 = true → (e_append1 env).2 = true → (e_append2 env).2 = true →
  e_typingOk env = true →
  3 ≤ maxHistoryLength config →
  (∀ h, startChat backend h = None) →
  (∀ h, ∃ r, sendMessage backend h txt = Done r) →
  ∃ cm' r hist pre,
    handleTextMessage config enableImageRecognition backend this env chatId
      (Some (uid, info)) (Some txt) cm
    = (if e_replyOk env then SendReply r else SendApology, cm')
    ∧ sendMessage backend hist txt = Done r
    ∧ historyOf uid cm'
      = Some (pre ++ [mkChatMessage User txt (e_userStamp env) (Some Text);
                      mkChatMessage Assistant r (e_replyStamp env) None])
    ∧ totalMessagesOf cm' = totalMessagesOf cm + 2.
Proof.
  intros Hr Hguard Hok1 Hok2 Hok3 Htyping HH Hchat Hup.
  destruct (handleTextMessage_run config enableImageRecognition backend this
              env chatId uid info txt cm d Hr Hguard Hok1 Hok2 ltac:(lia))
    as (cm2 & d2 & u2 & Hr2 & Hu2 & Hlast & Hcount & ->).
  rewrite Htyping. simpl.
  set (hist := prepareConversationHistory config this (history u2) (Some (userMemory u2))).
  destruct (Hup hist) as [r Hsend].
  assert (Hgen : generateResponse config enableImageRecognition backend this
                   (history u2) (Some (userMemory u2)) None = Done r).
  { unfold generateResponse. fold hist. rewrite Hchat, Hlast. simpl.
    by rewrite Hsend. }
  rewrite Hgen, Hok3.
  destruct (addMessage_ok config cm2 d2 uid u2 (e_append2 env).1
              (mkChatMessage Assistant r (e_replyStamp env) None) Hr2 Hu2)
    as (cm5 & -> & Hr5).
  destruct (trimHistory_keeps_last_two config (history u2) _
              (mkChatMessage Assistant r (e_replyStamp env) None) HH Hlast)
    as [pre Hpre].
  exists cm5, r, hist, pre.
  split; [by destruct (e_replyOk env)|]. split; [done|]. split.
  - unfold historyOf, sessionOf. destruct Hr5 as [_ ->]. simpl.
    rewrite lookup_insert_eq. simpl. by rewrite Hpre.
  - rewrite (totalMessagesOf_ready _ _ Hr5), (totalMessagesOf_ready _ _ Hr). simpl. lia.
Qed.

End HandlerOutcomes.


Lemma handleTextMessage_success_witness :
  ∃ cm' r hist pre,
    handleTextMessage sampleConfig false echoBackend serviceA calmEnv 7
      (Some (42, mkUserInfo None None None)) (Some "hello") (freshManager 0 true)
    = (if e_replyOk calmEnv then SendReply r else SendApology, cm')
    ∧ sendMessage echoBackend hist "hello" = Done r
    ∧ historyOf 42 cm'
      = Some (pre ++ [mkChatMessage User "hello" (e_userStamp calmEnv) (Some Text);
                      mkChatMessage Assistant r (e_replyStamp calmEnv) None])
    ∧ totalMessagesOf cm' = totalMessagesOf (freshManager 0 true) + 2.
Proof.
  apply (handleTextMessage_success sampleConfig false echoBackend serviceA
           calmEnv 7 42 (mkUserInfo None None None) "hello" (freshManager 0 true)
           (emptyDatabase 0)).
  - split; reflexivity.
  - simpl. intros [H|[H|H]]; discriminate.
  - reflexivity.
  - reflexivity.
  - reflexivity.
  - reflexivity.
  - simpl. lia.
  - reflexivity.
  - intros h. by eexists.
Defined.

(** * Composite behaviour of the store *)

Lemma mergeMemory_combine m p q :
  mergeMemory (mergeMemory m p) q = mergeMemory m (combinePartial p q).
Proof.
  destruct p as [[?|] [?|] [?|] [?|]], q as [[?|] [?|] [?|] [?|]]; reflexivity.
Qed.

(** X24: two memory updates in a row leave in memory what a single update
    with the combined partial leaves: for each field the later provided value
    wins, and a field neither update provides keeps its old value. Repeating
    an update changes nothing further. *)
Theorem updateUserMemory_compose cm d uid u fsOk1 fsOk2 fsOk p q :
  ready cm d → users d !! uid = Some u →
  data (updateUserMemory fsOk2 uid q (updateUserMemory fsOk1 uid p cm).2).2
  = data (updateUserMemory fsOk uid (combinePartial p q) cm).2
  ∧ data (updateUserMemory fsOk2 uid p (updateUserMemory fsOk1 uid p cm).2).2
    = data (updateUserMemory fsOk1 uid p cm).2.
Proof.
  intros Hr Hu.
  assert (Hone : ∀ ok r,
            data (updateUserMemory ok uid r cm).2
            = Some (set_users (<[uid := set_userMemory (mergeMemory (userMemory u) r) u]>
                                 (users d)) d)
            ∧ isInitialized (updateUserMemory ok uid r cm).2 = true).
  { intros ok r. unfold updateUserMemory. unfold_m.
    rewrite (ensureInitialized_ready _ _ Hr), Hu. destruct Hr as [Hi _].
    by destruct ok. }
  assert (Htwo : ∀ ok1 ok2 r1 r2,
            data (updateUserMemory ok2 uid r2 (updateUserMemory ok1 uid r1 cm).2).2
            = Some (set_users
                      (<[uid := set_userMemory
                                  (mergeMemory (mergeMemory (userMemory u) r1) r2) u]>
                         (users d)) d)).
  { intros ok1 ok2 r1 r2. destruct (Hone ok1 r1) as [Hd1 Hi1].
    unfold updateUserMemory at 1. unfold_m. unfold ensureInitialized.
    rewrite Hi1, Hd1. simpl. rewrite lookup_insert_eq.
    destruct ok2; simpl; unfold set_users; simpl; by rewrite insert_insert_eq. }
  split.
  - rewrite Htwo. rewrite (proj1 (Hone fsOk (combinePartial p q))).
    by rewrite mergeMemory_combine.
  - rewrite Htwo. rewrite (proj1 (Hone fsOk1 p)).
    rewrite mergeMemory_combine.
    by destruct p as [[?|] [?|] [?|] [?|]].
Qed.

Lemma updateUserMemory_compose_witness :
  data (updateUserMemory true 1 (mkPartialUserMemory None None None (Some "coach"))
          (updateUserMemory true 1 (mkPartialUserMemory None None (Some ["g"]) None)
             sampleManager).2).2
  = data (updateUserMemory true 1
            (combinePartial (mkPartialUserMemory None None (Some ["g"]) None)
               (mkPartialUserMemory None None None (Some "coach")))
            sampleManager).2.
Proof.
  refine (proj1 (updateUserMemory_compose sampleManager sampleData 1 sampleSession
            true true true _ _ _ _)).
  - split; reflexivity.
  - reflexivity.
Defined.

(** X25: a user whose session was swept and who then comes back gets a
    brand-new session (fresh seed message, default memory, new creation
    time): the old history and memory are gone, and [totalUsers] counts the
    user a second time. *)
Theorem returning_after_sweep cm d uid u now fsOk daysInactive now' fsOk' chatId userInfo :
  ready cm d → users d !! uid = Some u →
  lastActivity u < cutoffTime now daysInactive →
  let cm1 := (cleanupInactiveUsers now fsOk daysInactive cm).2 in
  let r := getUserSession now' fsOk' chatId uid userInfo cm1 in
  sessionOf uid cm1 = None
  ∧ sessionOf uid r.2 = Some (newSession now' chatId uid userInfo)
  ∧ totalUsersOf r.2 = totalUsersOf cm + 1.
Proof.
  intros Hr Hu Hlt cm1 r.
  destruct (step_ready sampleConfig (mkCall (OpCleanupInactiveUsers daysInactive) now fsOk)
              cm d Hr) as [d1 Hr1].
  unfold step in Hr1. simpl in Hr1. fold cm1 in Hr1.
  pose proof (cleanupInactiveUsers_data cm d now fsOk daysInactive Hr) as Hd.
  fold cm1 in Hd. destruct Hr1 as [Hi1 Hd1]. rewrite Hd1 in Hd. injection Hd as ->.
  assert (Hgone : sessionOf uid cm1 = None).
  { unfold sessionOf. rewrite Hd1. simpl. rewrite cleanup_lookup, Hu.
    by rewrite bool_decide_eq_true_2. }
  split; [exact Hgone|].
  unfold sessionOf in Hgone. rewrite Hd1 in Hgone. simpl in Hgone.
  unfold r, getUserSession. unfold_m. unfold ensureInitialized.
  rewrite Hi1, Hd1. simpl. rewrite Hgone.
  unfold sessionOf, totalUsersOf, statsOf. destruct Hr as [_ ->].
  destruct fsOk'; simpl; by rewrite lookup_insert_eq.
Qed.

Lemma returning_after_sweep_witness :
  sessionOf 1
    (getUserSession (300 + 30 * msPerDay) true 7 1 None
       (cleanupInactiveUsers (200 + 30 * msPerDay) true 30 sampleManager).2).2
  = Some (newSession (300 + 30 * msPerDay) 7 1 None).
Proof.
  refine (proj1 (proj2 (returning_after_sweep sampleManager sampleData 1 sampleSession
            (200 + 30 * msPerDay) true 30 (300 + 30 * msPerDay) true 7 None _ _ _))).
  - split; reflexivity.
  - reflexivity.
  - unfold cutoffTime. simpl. lia.
Defined.

(** * Log preview *)

(** X26: the response text written to the log is the response itself
    when it has at most 100 code units, and otherwise its first 100 code units
    followed by three dots; it never exceeds 103 code units. *)
Theorem responsePreview_bounded (CodeUnit : Type) (dot : CodeUnit) response :
  (length (responsePreview CodeUnit dot response) ≤ 103)%nat
  ∧ ((length response ≤ 100)%nat → responsePreview CodeUnit dot response = response)
  ∧ ((100 < length response)%nat →
     responsePreview CodeUnit dot response = take 100 response ++ [dot; dot; dot]
     ∧ length (responsePreview CodeUnit dot response) = 103%nat).
Proof.
  unfold responsePreview. split; [|split].
  - rewrite length_app, length_take. case_bool_decide; simpl length; lia.
  - intros Hle. rewrite bool_decide_eq_false_2 by lia.
    by rewrite take_ge, app_nil_r.
  - intros Hgt. rewrite bool_decide_eq_true_2 by done. split; [done|].
    rewrite length_app, length_take. simpl length. lia.
Qed.

Lemma responsePreview_bounded_witness :
  responsePreview Z 46 [72; 105] = [72; 105].
Proof.
  refine (proj1 (proj2 (responsePreview_bounded Z 46 [72; 105])) _).
  simpl. lia.
Defined.
